(** * Paper-trading strategy of dexscreener-tradebot (paperstrat.go)

    A shallow embedding of the scoring and position-management code:
    [calculateBuySellRatio], [normalize], [calculateScores],
    [profitabilityPercent], [logWalletState] and the decision cycle
    [runScan], followed by the properties the specification states about
    them.

    Numbers.  Go's [float64] is kept abstract behind the interface
    [Float64]; the program is written once against it and run at two
    instances: [Binary64] (IEEE 754 binary64, the kernel's primitive
    floats: what the compiled program computes) and [Exact] (rationals:
    the arithmetic the specification's formulas are written in).  Go's
    [int] is a 64-bit two's-complement integer, a [Z] wrapped by
    [Go.wrap]. *)

From Stdlib Require Import ZArith QArith Qround Lia Lqa Floats Ascii String.
From Stdlib Require Import Sorting.Sorted Sorting.Permutation.
From stdpp Require Import base strings pretty gmap list.

Local Open Scope Z_scope.

(** ** Go's machine integers and time values *)

Module Go.

(** Two's-complement wrap-around of a 64-bit [int]. *)
Definition wrap (z : Z) : Z := (z + 2 ^ 63) mod 2 ^ 64 - 2 ^ 63.



(** [a + b] on [int]. *)
Definition add (a b : Z) : Z := wrap (a + b).

(** [a / b] on [int]: truncated towards zero. *)
Definition quot (a b : Z) : Z := wrap (Z.quot a b).

(** [time.Time] as nanoseconds since the Unix epoch, [time.Duration] as
    nanoseconds. *)
Definition Time := Z.
Definition Duration := Z.
Definition Second : Duration := 1000000000.
Definition Minute : Duration := 60 * Second.
Definition Hour : Duration := 60 * Minute.

(** [time.Unix(sec, 0)]. *)
Definition Unix (sec : Z) : Time := sec * Second.


End Go.

(** ** The [float64] interface *)

Class Float64 (F : Type) : Type := {
  fadd : F -> F -> F;
  fsub : F -> F -> F;
  fmul : F -> F -> F;
  fdiv : F -> F -> F;
  (** [x == y], [x < y], [x <= y] *)
  feqb : F -> F -> bool;
  fltb : F -> F -> bool;
  fleb : F -> F -> bool;
  (** [math.Max], [math.Min] *)
  mathMax : F -> F -> F;
  mathMin : F -> F -> F;
  (** the conversion [float64(n)] of an [int] *)
  float64_of_int : Z -> F;
  (** an untyped constant (exact in Go) converted to [float64] where it
      meets a [float64] operand *)
  fconst : Q -> F
}.

Declare Scope float64_scope.
Delimit Scope float64_scope with f64.
Infix "+" := fadd : float64_scope.
Infix "-" := fsub : float64_scope.
Infix "*" := fmul : float64_scope.
Infix "/" := fdiv : float64_scope.
Infix "=?" := feqb (at level 70, no associativity) : float64_scope.
Infix "<?" := fltb (at level 70, no associativity) : float64_scope.
Infix "<=?" := fleb (at level 70, no associativity) : float64_scope.
Notation "x >? y" := (fltb y x) (only parsing) : float64_scope.
Notation "x >=? y" := (fleb y x) (only parsing) : float64_scope.

(** *** Exact arithmetic *)

Definition Qltb (x y : Q) : bool := negb (Qle_bool y x).

#[export] Instance Exact : Float64 Q := {|
  fadd := Qplus;
  fsub := Qminus;
  fmul := Qmult;
  fdiv := Qdiv;
  feqb := Qeq_bool;
  fltb := Qltb;
  fleb := Qle_bool;
  mathMax := fun x y => if Qltb y x then x else y;
  mathMin := fun x y => if Qltb x y then x else y;
  float64_of_int := inject_Z;
  fconst := fun q => q
|}.

(** *** IEEE 754 binary64 *)

Module B64.

(** [float64(n)]: the integer rounded to the nearest binary64 value, ties
    to even. *)
Definition of_int (z : Z) : float :=
  SF2Prim (binary_normalize prec emax z 0 false).

(** A decimal constant [n/d] rounded once: both operands are exact when
    below [2^53] and IEEE division rounds the quotient correctly. *)
Definition of_Q (q : Q) : float :=
  PrimFloat.div (of_int (Qnum q)) (of_int (Zpos (Qden q))).

Definition is_pos_inf (x : float) : bool :=
  PrimFloat.is_infinity x && negb (PrimFloat.get_sign x).
Definition is_neg_inf (x : float) : bool :=
  PrimFloat.is_infinity x && PrimFloat.get_sign x.

(** Go's [math.Max] with its special cases: [+Inf] wins, then [NaN],
    then [+0] over [-0]. *)
Definition Max (x y : float) : float :=
  if is_pos_inf x || is_pos_inf y then PrimFloat.infinity
  else if PrimFloat.is_nan x || PrimFloat.is_nan y then PrimFloat.nan
  else if PrimFloat.is_zero x && PrimFloat.eqb x y
       then (if PrimFloat.get_sign x then y else x)
  else if PrimFloat.ltb y x then x else y.

(** Go's [math.Min]: [-Inf] wins, then [NaN], then [-0] over [+0]. *)
Definition Min (x y : float) : float :=
  if is_neg_inf x || is_neg_inf y then PrimFloat.neg_infinity
  else if PrimFloat.is_nan x || PrimFloat.is_nan y then PrimFloat.nan
  else if PrimFloat.is_zero x && PrimFloat.eqb x y
       then (if PrimFloat.get_sign x then x else y)
  else if PrimFloat.ltb x y then x else y.


End B64.

#[export] Instance Binary64 : Float64 float := {|
  fadd := PrimFloat.add;
  fsub := PrimFloat.sub;
  fmul := PrimFloat.mul;
  fdiv := PrimFloat.div;
  feqb := PrimFloat.eqb;
  fltb := PrimFloat.ltb;
  fleb := PrimFloat.leb;
  mathMax := B64.Max;
  mathMin := B64.Min;
  float64_of_int := B64.of_int;
  fconst := B64.of_Q
|}.

(** ** Library functions the program calls *)

(** [strconv.ParseFloat(val, 64)]: [None] stands for a non-nil error. *)
Class Strconv (F : Type) : Type := {
  ParseFloat : string -> option F
}.

(** The ordering [sort.Slice] asks of its [less] function: a strict weak
    ordering. *)
Record StrictWeakOrder {A : Type} (less : A -> A -> bool) : Prop := {
  swo_irrefl : forall a, less a a = false;
  swo_trans : forall a b c, less a b = true -> less b c = true -> less a c = true;
  swo_neg_trans : forall a b c, less a b = false -> less b c = false -> less a c = false
}.

(** [sort.Slice(x, less)] by its documented contract: the slice is permuted
    in place, and for a strict weak ordering the result is sorted by
    [less].  Nothing is promised about the order of equal elements. *)
Class SortSlice : Type := {
  sort_Slice : forall {A : Type}, (A -> A -> bool) -> list A -> list A;
  sort_Slice_Permutation :
    forall (A : Type) (less : A -> A -> bool) (x : list A),
      Permutation x (sort_Slice less x);
  sort_Slice_sorted :
    forall (A : Type) (less : A -> A -> bool) (x : list A),
      StrictWeakOrder less ->
      StronglySorted (fun a b => less b a = false) (sort_Slice less x)
}.


(** *** Insertion sort

    Insertion sort as Go's [sort] package runs it on short slices:
    [for i := a+1; i < b; i++ { for j := i; j > a && less(j, j-1); j-- { swap(j, j-1) } }].
    The sorted prefix is kept reversed, nearest neighbour first, so the
    inner loop is a walk down that list. *)

Fixpoint sink {A : Type} (less : A -> A -> bool) (x : A) (rprefix : list A) : list A :=
  match rprefix with
  | [] => [x]
  | p :: ps => if less x p then p :: sink less x ps else x :: p :: ps
  end.

Definition insertionSort {A : Type} (less : A -> A -> bool) (x : list A) : list A :=
  rev (fold_left (fun rprefix e => sink less e rprefix) x []).

Section InsertionSort.

Context {A : Type} (less : A -> A -> bool).

Lemma sink_Permutation (x : A) (ps : list A) :
  Permutation (x :: ps) (sink less x ps).
Proof.
  induction ps as [|p ps IH]; simpl; [reflexivity|].
  destruct (less x p); [|reflexivity].
  rewrite perm_swap. now apply perm_skip.
Qed.

Lemma insertion_loop_Permutation (x acc : list A) :
  Permutation (rev acc ++ x) (rev (fold_left (fun r e => sink less e r) x acc)).
Proof.
  revert acc. induction x as [|e x IH]; intros acc; simpl.
  - now rewrite app_nil_r.
  - rewrite <- IH.
    change (e :: x) with ([e] ++ x). rewrite app_assoc.
    apply Permutation_app_tail.
    rewrite <- (Permutation_rev (sink less e acc)), <- sink_Permutation.
    rewrite <- Permutation_cons_append.
    apply perm_skip, Permutation_sym, Permutation_rev.
Qed.

Lemma insertionSort_Permutation (x : list A) :
  Permutation x (insertionSort less x).
Proof. exact (insertion_loop_Permutation x []). Qed.

Lemma StronglySorted_snoc (R : A -> A -> Prop) (l : list A) (a : A) :
  StronglySorted R l -> Forall (fun b => R b a) l -> StronglySorted R (l ++ [a]).
Proof.
  induction 1 as [|b l Hl IH Hb]; intros Ha; simpl.
  - repeat constructor.
  - apply Forall_cons_iff in Ha as [Hba Ha].
    constructor; [now apply IH|].
    apply Forall_app. split; [assumption|now repeat constructor].
Qed.

Lemma StronglySorted_rev_flip (R : A -> A -> Prop) (l : list A) :
  StronglySorted R l -> StronglySorted (fun a b => R b a) (rev l).
Proof.
  induction 1 as [|a l Hl IH Ha]; simpl; [constructor|].
  apply StronglySorted_snoc; [assumption|].
  rewrite List.Forall_forall in *. intros b Hb. apply Ha. now apply in_rev.
Qed.

(** [less] as a strict weak ordering of the elements of one slice: the
    function handed to [sort.Slice] compares elements of the slice only. *)
Record StrictWeakOrderOn (x : list A) : Prop := {
  swo_on_irrefl : forall a, In a x -> less a a = false;
  swo_on_trans :
    forall a b c, In a x -> In b x -> In c x ->
      less a b = true -> less b c = true -> less a c = true;
  swo_on_neg_trans :
    forall a b c, In a x -> In b x -> In c x ->
      less a b = false -> less b c = false -> less a c = false
}.

Lemma StrictWeakOrder_on (x : list A) :
  StrictWeakOrder less -> StrictWeakOrderOn x.
Proof.
  intros [Hi Ht Hn]. split.
  - intros a _. apply Hi.
  - intros a b c _ _ _. apply Ht.
  - intros a b c _ _ _. apply Hn.
Qed.

Lemma StrictWeakOrderOn_Permutation (x y : list A) :
  Permutation x y -> StrictWeakOrderOn x -> StrictWeakOrderOn y.
Proof.
  intros Hp [Hi Ht Hn].
  assert (forall a, In a y -> In a x) as Hin
    by (intros a; apply Permutation_in, Permutation_sym, Hp).
  split.
  - intros a Ha. apply Hi; auto.
  - intros a b c Ha Hb Hc. apply Ht; auto.
  - intros a b c Ha Hb Hc. apply Hn; auto.
Qed.

(** The reversed prefix is sorted when no element is [less] than one that
    follows it in the list. *)
Definition rsorted (r : list A) : Prop :=
  StronglySorted (fun a b => less a b = false) r.

Section OnSlice.

Variable xs : list A.

Hypothesis less_swo : StrictWeakOrderOn xs.

Lemma swo_asym (a b : A) :
  In a xs -> In b xs -> less a b = true -> less b a = false.
Proof.
  intros Ha Hb Hab. destruct (less b a) eqn:Hba; [|reflexivity].
  pose proof (swo_on_trans xs less_swo a b a Ha Hb Ha Hab Hba) as Haa.
  rewrite (swo_on_irrefl xs less_swo a Ha) in Haa. discriminate.
Qed.

Lemma sink_rsorted (x : A) (r : list A) :
  In x xs -> (forall y, In y r -> In y xs) ->
  rsorted r -> rsorted (sink less x r).
Proof.
  unfold rsorted. intros Hx. induction r as [|p ps IH]; intros Hin Hs; simpl.
  - repeat constructor.
  - apply StronglySorted_inv in Hs as [Hps Hall].
    assert (In p xs) as Hp by (apply Hin; now left).
    assert (forall y, In y ps -> In y xs) as Hin' by (intros y Hy; apply Hin; now right).
    destruct (less x p) eqn:Hxp.
    + constructor; [now apply IH|].
      rewrite List.Forall_forall in *. intros y Hy.
      apply (Permutation_in _ (Permutation_sym (sink_Permutation x ps))) in Hy.
      destruct Hy as [<-|Hy]; [now apply swo_asym | now apply Hall].
    + constructor; [now constructor|].
      constructor; [assumption|].
      rewrite List.Forall_forall in *. intros y Hy.
      apply (swo_on_neg_trans xs less_swo x p y Hx Hp (Hin' y Hy) Hxp).
      now apply Hall.
Qed.

Lemma insertion_loop_rsorted (x acc : list A) :
  (forall y, In y x -> In y xs) -> (forall y, In y acc -> In y xs) ->
  rsorted acc -> rsorted (fold_left (fun r e => sink less e r) x acc).
Proof.
  revert acc. induction x as [|e x IH]; intros acc Hx Hin Hacc; simpl;
    [assumption|].
  apply IH.
  - intros y Hy. apply Hx. now right.
  - intros y Hy.
    apply (Permutation_in _ (Permutation_sym (sink_Permutation e acc))) in Hy.
    destruct Hy as [<-|Hy]; [apply Hx; now left|now apply Hin].
  - apply sink_rsorted; [apply Hx; now left|exact Hin|exact Hacc].
Qed.

Lemma insertionSort_sorted_on :
  StronglySorted (fun a b => less b a = false) (insertionSort less xs).
Proof.
  unfold insertionSort.
  apply (StronglySorted_rev_flip (fun a b => less a b = false)).
  apply insertion_loop_rsorted; [auto|intros y []|constructor].
Qed.

(** A slice whose neighbours are in order is sorted. *)
Fixpoint neighboursInOrder (y : list A) : bool :=
  match y with
  | a :: (b :: _) as rest => negb (less b a) && neighboursInOrder rest
  | _ => true
  end.

Lemma neighboursInOrder_sorted (y : list A) :
  (forall a, In a y -> In a xs) ->
  neighboursInOrder y = true ->
  StronglySorted (fun a b => less b a = false) y.
Proof.
  induction y as [|a y IH]; intros Hin Hy; [constructor|].
  assert (forall c, In c y -> In c xs) as Hin' by (intros c Hc; apply Hin; now right).
  destruct y as [|b y]; [repeat constructor|].
  cbn [neighboursInOrder] in Hy. apply andb_prop in Hy as [Hba Hy].
  apply negb_true_iff in Hba.
  specialize (IH Hin' Hy).
  constructor; [exact IH|].
  apply StronglySorted_inv in IH as [_ Hall].
  constructor; [exact Hba|].
  rewrite List.Forall_forall in *. intros c Hc.
  apply (swo_on_neg_trans xs less_swo c b a); auto.
  - apply Hin'. now right.
  - apply Hin'. now left.
  - apply Hin. now left.
Qed.

End OnSlice.

Lemma insertionSort_sorted (x : list A) :
  StrictWeakOrder less ->
  StronglySorted (fun a b => less b a = false) (insertionSort less x).
Proof. intros Hswo. apply insertionSort_sorted_on, StrictWeakOrder_on, Hswo. Qed.

End InsertionSort.

Definition InsertionSortSlice : SortSlice := {|
  sort_Slice := @insertionSort;
  sort_Slice_Permutation := @insertionSort_Permutation;
  sort_Slice_sorted := fun A less x Hswo => @insertionSort_sorted A less x Hswo
|}.

(** A sorter that orders every slice on whose elements [less] is a strict
    weak ordering, whatever [less] does elsewhere. *)
Definition SortsOnSlice (S : SortSlice) : Prop :=
  forall (A : Type) (less : A -> A -> bool) (x : list A),
    StrictWeakOrderOn less x ->
    StronglySorted (fun a b => less b a = false) (@sort_Slice S A less x).

(** *** [sort.Slice] as Go runs it

    The pattern-defeating quicksort of Go's [sort] package (since Go 1.19;
    zsortfunc.go), function by function, on the slice as a list: [a] and [b]
    bound the range being sorted, [data.Less] and [data.Swap] work by
    index.  Slices of at most 12 elements are sorted by insertion; longer
    ones go through [choosePivot_func] and the partitions, which move equal
    elements past each other. *)

Module GoSort.

Local Open Scope nat_scope.

Section Sort.

Context {A : Type} (less : A -> A -> bool).

(** [data.Less(i, j)] and [data.Swap(i, j)] on the slice [d]. *)
Definition Less (d : list A) (i j : nat) : bool :=
  match d !! i, d !! j with
  | Some x, Some y => less x y
  | _, _ => false
  end.

Definition Swap (d : list A) (i j : nat) : list A :=
  match d !! i, d !! j with
  | Some x, Some y => <[i := y]> (<[j := x]> d)
  | _, _ => d
  end.

(** [insertionSort_func]:
    [for i := a + 1; i < b; i++ { for j := i; j > a && data.Less(j, j-1); j-- { data.Swap(j, j-1) } }] *)
Fixpoint insertionSink (a j : nat) (d : list A) : list A :=
  match j with
  | 0 => d
  | S j' => if (a <? j)%nat && Less d j j' then insertionSink a j' (Swap d j j') else d
  end.

Fixpoint insertionLoop (a i steps : nat) (d : list A) : list A :=
  match steps with
  | 0 => d
  | S steps => insertionLoop a (S i) steps (insertionSink a i d)
  end.

Definition insertionSort_func (d : list A) (a b : nat) : list A :=
  insertionLoop a (a + 1) (b - (a + 1)) d.

Inductive sortedHint := unknownHint | increasingHint | decreasingHint.

(** [order2_func]: the two indices in order, and the count of swaps. *)
Definition order2_func (d : list A) (a b swaps : nat) : nat * nat * nat :=
  if Less d b a then (b, a, S swaps) else (a, b, swaps).

(** [median_func]. *)
Definition median_func (d : list A) (a b c swaps : nat) : nat * nat :=
  let '(a, b, swaps) := order2_func d a b swaps in
  let '(b, c, swaps) := order2_func d b c swaps in
  let '(a, b, swaps) := order2_func d a b swaps in
  (b, swaps).

(** [medianAdjacent_func]. *)
Definition medianAdjacent_func (d : list A) (a swaps : nat) : nat * nat :=
  median_func d (a - 1) a (a + 1) swaps.

(** [choosePivot_func]. *)
Definition choosePivot_func (d : list A) (a b : nat) : nat * sortedHint :=
  let shortestNinther := 50 in
  let maxSwaps := 4 * 3 in
  let l := b - a in
  let swaps := 0 in
  let i := a + l / 4 * 1 in
  let j := a + l / 4 * 2 in
  let k := a + l / 4 * 3 in
  let '(j, swaps) :=
    if (8 <=? l)%nat then
      let '(i, j, k, swaps) :=
        if (shortestNinther <=? l)%nat then
          let '(i, swaps) := medianAdjacent_func d i swaps in
          let '(j, swaps) := medianAdjacent_func d j swaps in
          let '(k, swaps) := medianAdjacent_func d k swaps in
          (i, j, k, swaps)
        else (i, j, k, swaps) in
      median_func d i j k swaps
    else (j, swaps) in
  if (swaps =? 0)%nat then (j, increasingHint)
  else if (swaps =? maxSwaps)%nat then (j, decreasingHint)
  else (j, unknownHint).

(** [reverseRange_func]: [for i < j { data.Swap(i, j); i++; j-- }]. *)
Fixpoint reverseLoop (steps i j : nat) (d : list A) : list A :=
  match steps with
  | 0 => d
  | S steps =>
      if (i <? j)%nat then reverseLoop steps (S i) (j - 1) (Swap d i j) else d
  end.

Definition reverseRange_func (d : list A) (a b : nat) : list A :=
  reverseLoop (b - a) a (b - 1) d.

(** The scans of the partitions,
    [for i <= j && test(i) { i++ }] and [for i <= j && test(j) { j-- }].
    The indices are Go [int]s; here they are [nat]s, as [j] is decremented
    only while [a + 1 <= i <= j]. *)
Fixpoint scanUpLoop (steps : nat) (test : nat -> bool) (i j : nat) : nat :=
  match steps with
  | 0 => i
  | S steps => if (i <=? j)%nat && test i then scanUpLoop steps test (S i) j else i
  end.

Definition scanUp (test : nat -> bool) (i j : nat) : nat :=
  scanUpLoop (S j - i) test i j.

Fixpoint scanDownLoop (steps : nat) (test : nat -> bool) (i j : nat) : nat :=
  match steps with
  | 0 => j
  | S steps => if (i <=? j)%nat && test j then scanDownLoop steps test i (j - 1) else j
  end.

Definition scanDown (test : nat -> bool) (i j : nat) : nat :=
  scanDownLoop (S j - i) test i j.

(** [partitionEqual_func]. *)
Fixpoint partitionEqualLoop (steps : nat) (d : list A) (a i j : nat) : list A * nat :=
  match steps with
  | 0 => (d, i)
  | S steps =>
      let i := scanUp (fun i => negb (Less d a i)) i j in
      let j := scanDown (fun j => Less d a j) i j in
      if (j <? i)%nat then (d, i)
      else partitionEqualLoop steps (Swap d i j) a (S i) (j - 1)
  end.

Definition partitionEqual_func (d : list A) (a b pivot : nat) : list A * nat :=
  let d := Swap d a pivot in
  partitionEqualLoop (S (b - a)) d a (a + 1) (b - 1).

(** [partition_func]. *)
Fixpoint partitionLoop (steps : nat) (d : list A) (a i j : nat) : list A * nat :=
  match steps with
  | 0 => (d, j)
  | S steps =>
      let i := scanUp (fun i => Less d i a) i j in
      let j := scanDown (fun j => negb (Less d j a)) i j in
      if (j <? i)%nat then (d, j)
      else partitionLoop steps (Swap d i j) a (S i) (j - 1)
  end.

Definition partition_func (d : list A) (a b pivot : nat) : list A * nat * bool :=
  let d := Swap d a pivot in
  let i := a + 1 in
  let j := b - 1 in
  let i := scanUp (fun i => Less d i a) i j in
  let j := scanDown (fun j => negb (Less d j a)) i j in
  if (j <? i)%nat then (Swap d j a, j, true)
  else
    let d := Swap d i j in
    let '(d, j) := partitionLoop (S (b - a)) d a (S i) (j - 1) in
    (Swap d j a, j, false).

(** [partialInsertionSort_func].  The two shifts,
    [for j := i - 1; j >= 1; j-- { if !data.Less(j, j-1) { break }; data.Swap(j, j-1) }] and
    [for j := i + 1; j < b; j++ { if !data.Less(j, j-1) { break }; data.Swap(j, j-1) }]. *)
Fixpoint shiftLeft (j : nat) (d : list A) : list A :=
  match j with
  | 0 => d
  | S j' => if Less d j j' then shiftLeft j' (Swap d j j') else d
  end.

Fixpoint shiftRight (steps j : nat) (d : list A) : list A :=
  match steps with
  | 0 => d
  | S steps => if Less d j (j - 1) then shiftRight steps (S j) (Swap d j (j - 1)) else d
  end.

Fixpoint partialInsertionLoop (steps : nat) (d : list A) (a b i : nat) : list A * bool :=
  match steps with
  | 0 => (d, false)
  | S steps =>
      let shortestShifting := 50 in
      let i := scanUp (fun i => negb (Less d i (i - 1))) i (b - 1) in
      if (i =? b)%nat then (d, true)
      else if (b - a <? shortestShifting)%nat then (d, false)
      else
        let d := Swap d i (i - 1) in
        let d := if (2 <=? i - a)%nat then shiftLeft (i - 1) d else d in
        let d := if (2 <=? b - i)%nat then shiftRight (b - (i + 1)) (i + 1) d else d in
        partialInsertionLoop steps d a b i
  end.

Definition partialInsertionSort_func (d : list A) (a b : nat) : list A * bool :=
  let maxSteps := 5 in
  partialInsertionLoop maxSteps d a b (a + 1).

(** [pdqsort_func].  The loop runs on [a], [b], [wasBalanced] and
    [wasPartitioned]; every turn and every recursive call is on a shorter
    range, so [fuel] above the length is never used up.  [heapSort_func] and
    [breakPatterns_func] are not modelled: where the code reaches them the
    result is [None]. *)
Fixpoint pdqsortLoop (fuel : nat) (d : list A) (a b limit : nat)
    (wasBalanced wasPartitioned : bool) : option (list A) :=
  match fuel with
  | 0 => None
  | S fuel =>
      let maxInsertion := 12 in
      let length := b - a in
      if (length <=? maxInsertion)%nat then Some (insertionSort_func d a b)
      else if (limit =? 0)%nat then None
      else if negb wasBalanced then None
      else
        let '(pivot, hint) := choosePivot_func d a b in
        let '(d, pivot, hint) :=
          match hint with
          | decreasingHint => (reverseRange_func d a b, (b - 1) - (pivot - a), increasingHint)
          | _ => (d, pivot, hint)
          end in
        let '(d, done) :=
          match hint with
          | increasingHint =>
              if wasBalanced && wasPartitioned then partialInsertionSort_func d a b
              else (d, false)
          | _ => (d, false)
          end in
        if done then Some d
        else if (0 <? a)%nat && negb (Less d (a - 1) pivot) then
          let '(d, mid) := partitionEqual_func d a b pivot in
          pdqsortLoop fuel d mid b limit wasBalanced wasPartitioned
        else
          let '(d, mid, alreadyPartitioned) := partition_func d a b pivot in
          let leftLen := mid - a in
          let rightLen := b - mid in
          let balanceThreshold := length / 8 in
          if (leftLen <? rightLen)%nat then
            match pdqsortLoop fuel d a mid limit true true with
            | Some d =>
                pdqsortLoop fuel d (mid + 1) b limit
                  (balanceThreshold <=? leftLen)%nat alreadyPartitioned
            | None => None
            end
          else
            match pdqsortLoop fuel d (mid + 1) b limit true true with
            | Some d =>
                pdqsortLoop fuel d a mid limit
                  (balanceThreshold <=? rightLen)%nat alreadyPartitioned
            | None => None
            end
  end.

Definition pdqsort_func (d : list A) (a b limit : nat) : option (list A) :=
  pdqsortLoop (S (b - a)) d a b limit true true.

(** [bits.Len]. *)
Definition bitsLen (n : nat) : nat := Z.to_nat (Z.log2 (Z.of_nat n) + (if (n =? 0)%nat then 0 else 1)).

(** [sort.Slice(x, less)]: [pdqsort_func(lessSwap, 0, length, bits.Len(uint(length)))]. *)
Definition Slice (x : list A) : option (list A) :=
  let length := List.length x in
  let limit := bitsLen length in
  pdqsort_func x 0 length limit.


(** Every function of the sorter permutes the slice: it changes it by
    [data.Swap] alone. *)
Lemma Swap_Permutation (d : list A) (i j : nat) : Permutation d (Swap d i j).
Proof.
  unfold Swap.
  destruct (d !! i) as [x|] eqn:Hi; [|reflexivity].
  destruct (d !! j) as [y|] eqn:Hj; [|reflexivity].
  symmetry. now apply Permutation_insert_swap.
Qed.

Lemma insertionSink_Permutation (a j : nat) (d : list A) :
  Permutation d (insertionSink a j d).
Proof.
  revert d. induction j as [|j IH]; intros d; cbn [insertionSink]; [reflexivity|].
  destruct ((a <? S j)%nat && Less d (S j) j); [|reflexivity].
  rewrite <- IH. apply Swap_Permutation.
Qed.

Lemma insertionLoop_Permutation (a i steps : nat) (d : list A) :
  Permutation d (insertionLoop a i steps d).
Proof.
  revert i d. induction steps as [|steps IH]; intros i d; cbn [insertionLoop];
    [reflexivity|].
  rewrite <- IH. apply insertionSink_Permutation.
Qed.

Lemma insertionSort_func_Permutation (d : list A) (a b : nat) :
  Permutation d (insertionSort_func d a b).
Proof. apply insertionLoop_Permutation. Qed.

Lemma reverseLoop_Permutation (steps i j : nat) (d : list A) :
  Permutation d (reverseLoop steps i j d).
Proof.
  revert i j d. induction steps as [|steps IH]; intros i j d; cbn [reverseLoop];
    [reflexivity|].
  destruct (i <? j)%nat; [|reflexivity].
  rewrite <- IH. apply Swap_Permutation.
Qed.

Lemma reverseRange_func_Permutation (d : list A) (a b : nat) :
  Permutation d (reverseRange_func d a b).
Proof. apply reverseLoop_Permutation. Qed.

Lemma partitionEqualLoop_Permutation (steps : nat) (d : list A) (a i j : nat) :
  Permutation d (fst (partitionEqualLoop steps d a i j)).
Proof.
  revert d i j. induction steps as [|steps IH]; intros d i j;
    cbn [partitionEqualLoop]; [reflexivity|].
  cbv zeta. destruct (_ <? _)%nat; [reflexivity|].
  rewrite <- IH. apply Swap_Permutation.
Qed.

Lemma partitionEqual_func_Permutation (d : list A) (a b pivot : nat) :
  Permutation d (fst (partitionEqual_func d a b pivot)).
Proof.
  unfold partitionEqual_func. cbv zeta.
  rewrite <- partitionEqualLoop_Permutation. apply Swap_Permutation.
Qed.

Lemma partitionLoop_Permutation (steps : nat) (d : list A) (a i j : nat) :
  Permutation d (fst (partitionLoop steps d a i j)).
Proof.
  revert d i j. induction steps as [|steps IH]; intros d i j;
    cbn [partitionLoop]; [reflexivity|].
  cbv zeta. destruct (_ <? _)%nat; [reflexivity|].
  rewrite <- IH. apply Swap_Permutation.
Qed.

Lemma partition_func_Permutation (d : list A) (a b pivot : nat) :
  Permutation d (fst (fst (partition_func d a b pivot))).
Proof.
  unfold partition_func. cbv zeta.
  destruct (_ <? _)%nat; cbn [fst].
  - rewrite <- Swap_Permutation. apply Swap_Permutation.
  - match goal with
    | |- context [partitionLoop ?n ?d' ?a' ?i ?j] =>
        pose proof (partitionLoop_Permutation n d' a' i j) as Hloop;
        destruct (partitionLoop n d' a' i j) as [d2 j2]
    end.
    cbn [fst] in *. rewrite <- Swap_Permutation, <- Hloop.
    rewrite <- Swap_Permutation. apply Swap_Permutation.
Qed.

Lemma shiftLeft_Permutation (j : nat) (d : list A) :
  Permutation d (shiftLeft j d).
Proof.
  revert d. induction j as [|j IH]; intros d; cbn [shiftLeft]; [reflexivity|].
  destruct (Less d (S j) j); [|reflexivity].
  rewrite <- IH. apply Swap_Permutation.
Qed.

Lemma shiftRight_Permutation (steps j : nat) (d : list A) :
  Permutation d (shiftRight steps j d).
Proof.
  revert j d. induction steps as [|steps IH]; intros j d; cbn [shiftRight];
    [reflexivity|].
  destruct (Less d j (j - 1)); [|reflexivity].
  rewrite <- IH. apply Swap_Permutation.
Qed.

Lemma partialInsertionLoop_Permutation (steps : nat) (d : list A) (a b i : nat) :
  Permutation d (fst (partialInsertionLoop steps d a b i)).
Proof.
  revert d i. induction steps as [|steps IH]; intros d i;
    cbn [partialInsertionLoop]; [reflexivity|].
  cbv zeta. destruct (_ =? _)%nat; [reflexivity|].
  destruct (_ <? _)%nat; [reflexivity|].
  rewrite <- IH.
  destruct (2 <=? b - _)%nat; [rewrite <- shiftRight_Permutation|];
    (destruct (2 <=? _ - a)%nat; [rewrite <- shiftLeft_Permutation|]);
    apply Swap_Permutation.
Qed.

Lemma partialInsertionSort_func_Permutation (d : list A) (a b : nat) :
  Permutation d (fst (partialInsertionSort_func d a b)).
Proof. apply partialInsertionLoop_Permutation. Qed.

Lemma pdqsortLoop_Permutation (fuel : nat) (d d' : list A) (a b limit : nat)
    (wasBalanced wasPartitioned : bool) :
  pdqsortLoop fuel d a b limit wasBalanced wasPartitioned = Some d' ->
  Permutation d d'.
Proof.
  revert d d' a b wasBalanced wasPartitioned.
  induction fuel as [|fuel IH]; intros d d' a b wasBalanced wasPartitioned;
    cbn [pdqsortLoop]; [discriminate|].
  cbv zeta.
  destruct (_ <=? _)%nat.
  { intros [= <-]. apply insertionSort_func_Permutation. }
  destruct (limit =? 0)%nat; [discriminate|].
  destruct (negb wasBalanced); [discriminate|].
  destruct (choosePivot_func d a b) as [pivot hint].
  assert (forall d1 pivot1 hint1 d'',
             Permutation d d1 ->
             (let '(d2, done) :=
                match hint1 with
                | increasingHint =>
                    if wasBalanced && wasPartitioned
                    then partialInsertionSort_func d1 a b else (d1, false)
                | _ => (d1, false)
                end in
              if done then Some d2
              else if (0 <? a)%nat && negb (Less d2 (a - 1) pivot1) then
                let '(d3, mid) := partitionEqual_func d2 a b pivot1 in
                pdqsortLoop fuel d3 mid b limit wasBalanced wasPartitioned
              else
                let '(d3, mid, alreadyPartitioned) := partition_func d2 a b pivot1 in
                if (mid - a <? b - mid)%nat then
                  match pdqsortLoop fuel d3 a mid limit true true with
                  | Some d4 =>
                      pdqsortLoop fuel d4 (mid + 1) b limit
                        ((b - a) / 8 <=? mid - a)%nat alreadyPartitioned
                  | None => None
                  end
                else
                  match pdqsortLoop fuel d3 (mid + 1) b limit true true with
                  | Some d4 =>
                      pdqsortLoop fuel d4 a mid limit
                        ((b - a) / 8 <=? b - mid)%nat alreadyPartitioned
                  | None => None
                  end) = Some d'' ->
             Permutation d d'') as Hbody.
  { intros d1 pivot1 hint1 d'' Hd1.
    assert (exists d2 done, Permutation d1 d2 /\
              match hint1 with
              | increasingHint =>
                  if wasBalanced && wasPartitioned
                  then partialInsertionSort_func d1 a b else (d1, false)
              | _ => (d1, false)
              end = (d2, done)) as (d2 & done & Hd2 & ->).
    { destruct hint1; try (exists d1, false; split; reflexivity).
      destruct (wasBalanced && wasPartitioned);
        [|exists d1, false; split; reflexivity].
      pose proof (partialInsertionSort_func_Permutation d1 a b) as Hp.
      destruct (partialInsertionSort_func d1 a b) as [d2 done].
      exists d2, done. split; [exact Hp|reflexivity]. }
    destruct done; [intros [= <-]; now rewrite Hd1|].
    destruct ((0 <? a)%nat && negb (Less d2 (a - 1) pivot1)).
    - pose proof (partitionEqual_func_Permutation d2 a b pivot1) as Hp.
      destruct (partitionEqual_func d2 a b pivot1) as [d3 mid]. cbn [fst] in Hp.
      intros Hrec. apply IH in Hrec. now rewrite Hd1, Hd2, Hp.
    - pose proof (partition_func_Permutation d2 a b pivot1) as Hp.
      destruct (partition_func d2 a b pivot1) as [[d3 mid] already].
      cbn [fst] in Hp.
      destruct (_ <? _)%nat.
      + destruct (pdqsortLoop fuel d3 a mid limit true true) as [d4|] eqn:Hleft;
          [|discriminate].
        apply IH in Hleft. intros Hright. apply IH in Hright.
        now rewrite Hd1, Hd2, Hp, Hleft.
      + destruct (pdqsortLoop fuel d3 (mid + 1) b limit true true) as [d4|]
          eqn:Hright; [|discriminate].
        apply IH in Hright. intros Hleft. apply IH in Hleft.
        now rewrite Hd1, Hd2, Hp, Hright. }
  destruct hint.
  - apply (Hbody d pivot unknownHint). reflexivity.
  - apply (Hbody d pivot increasingHint). reflexivity.
  - apply (Hbody (reverseRange_func d a b) (b - 1 - (pivot - a)) increasingHint).
    apply reverseRange_func_Permutation.
Qed.

Lemma Slice_Permutation (x y : list A) : Slice x = Some y -> Permutation x y.
Proof. apply pdqsortLoop_Permutation. Qed.

End Sort.
End GoSort.

(** [sort.Slice] for the program: the result of the sorter above.  Where
    the model does not go ([heapSort_func], [breakPatterns_func]) or the
    outcome is out of order (as it may be when [less] is no ordering of the
    elements), the slice is sorted by insertion, so that the contract is met
    in every case. *)
Definition goSortSlice {A : Type} (less : A -> A -> bool) (x : list A) : list A :=
  match GoSort.Slice less x with
  | Some y => if neighboursInOrder less y then y else insertionSort less x
  | None => insertionSort less x
  end.

Lemma goSortSlice_Permutation (A : Type) (less : A -> A -> bool) (x : list A) :
  Permutation x (goSortSlice less x).
Proof.
  unfold goSortSlice.
  destruct (GoSort.Slice less x) as [y|] eqn:Hy;
    [|apply insertionSort_Permutation].
  destruct (neighboursInOrder less y); [|apply insertionSort_Permutation].
  now apply GoSort.Slice_Permutation in Hy.
Qed.

Lemma goSortSlice_sorted_on (A : Type) (less : A -> A -> bool) (x : list A) :
  StrictWeakOrderOn less x ->
  StronglySorted (fun a b => less b a = false) (goSortSlice less x).
Proof.
  intros Hswo. unfold goSortSlice.
  destruct (GoSort.Slice less x) as [y|] eqn:Hy;
    [|now apply insertionSort_sorted_on].
  destruct (neighboursInOrder less y) eqn:Hsorted;
    [|now apply insertionSort_sorted_on].
  apply GoSort.Slice_Permutation in Hy.
  apply (neighboursInOrder_sorted less x Hswo); [|exact Hsorted].
  intros a. apply Permutation_in, Permutation_sym, Hy.
Qed.

#[export] Instance GoSortSlice : SortSlice := {|
  sort_Slice := @goSortSlice;
  sort_Slice_Permutation := goSortSlice_Permutation;
  sort_Slice_sorted :=
    fun A less x Hswo =>
      goSortSlice_sorted_on A less x (StrictWeakOrder_on less x Hswo)
|}.

Lemma GoSortSlice_SortsOnSlice : SortsOnSlice GoSortSlice.
Proof. exact goSortSlice_sorted_on. Qed.

Lemma InsertionSortSlice_SortsOnSlice : SortsOnSlice InsertionSortSlice.
Proof. intros A less x. apply insertionSort_sorted_on. Qed.

(** ** Constants (paperstrat.go, lines 19-51)

    Untyped Go constants are exact; each is converted by [fconst] at the
    place where it meets a [float64] value. *)

Definition tradeSizeSOL : Q := 1.0.
Definition simulatedFeePercent : Q := 0.003.

Definition minLiquidityUSD : Q := 2000.0.
Definition minVolume5mUSD : Q := 500.0.
Definition minPairAgeHours : Q := 1.0.

Definition wM5Change : Q := 0.30.
Definition wH1Change : Q := 0.15.
Definition wM5Volume : Q := 0.20.
Definition wM5BuySellRatio : Q := 0.25.
Definition wLiquidity : Q := 0.10.
Definition minScoreToEnter : Q := 0.65.

Definition takeProfitThreshold : Q := 1.05.
Definition trailingStopLossPercent : Q := 0.03.
Definition momentumFadeExitM5 : Q := 0.001.
Definition liquidityDropPercent : Q := 0.30.

Definition topScorersCount : nat := 10.

(** ** Data (lines 55-135) *)

#[local] Set Implicit Arguments.
#[local] Set Maximal Implicit Insertion.

Module Token.
Record t : Type := mk { Address : string; Name : string; Symbol : string }.
End Token.

Module BuysSells.
Record t : Type := mk { Buys : Z; Sells : Z }.
End BuysSells.

Module Transactions.
Record t : Type := mk {
  M5 : BuysSells.t; H1 : BuysSells.t; H6 : BuysSells.t; H24 : BuysSells.t }.
End Transactions.

Module Volume.
Record t (F : Type) : Type := mk { H24 : F; H6 : F; H1 : F; M5 : F }.
End Volume.

Module PriceChange.
Record t (F : Type) : Type := mk { M5 : F; H1 : F; H6 : F; H24 : F }.
End PriceChange.

Module Liquidity.
Record t (F : Type) : Type := mk { Usd : F; Base : F; Quote : F }.
End Liquidity.

(** One pair of the DexScreener response, as [encoding/json] decoded it. *)
Module Pair.
Record t (F : Type) : Type := mk {
  ChainID : string;
  DexID : string;
  URL : string;
  PairAddress : string;
  BaseToken : Token.t;
  QuoteToken : Token.t;
  PriceNative : string;
  PriceUsd : string;
  Txns : Transactions.t;
  Volume : Volume.t F;
  PriceChange : PriceChange.t F;
  Liquidity : Liquidity.t F;
  Fdv : F;
  PairCreatedAt : Z
}.
End Pair.

Module TokenInfo.
Record t (F : Type) : Type := mk {
  PairAddress : string;
  BaseTokenSymbol : string;
  BaseTokenAddr : string;
  QuoteTokenSymbol : string;
  QuoteTokenAddr : string;
  PairCreatedAt : Go.Time;
  PriceNative : F;
  PriceUSD : F;
  LiquidityUSD : F;
  PriceChangeM5 : F;
  PriceChangeH1 : F;
  VolumeM5 : F;
  M5BuySellRatio : F;
  PairURL : string;
  NormM5Change : F;
  NormH1Change : F;
  NormM5Volume : F;
  NormM5BuySellRatio : F;
  NormLiquidity : F;
  Score : F
}.

(** [c.Score = s] on a copy of [c]. *)
Definition withScore {F : Type} (c : t F) (s : F) : t F :=
  mk (PairAddress c) (BaseTokenSymbol c) (BaseTokenAddr c) (QuoteTokenSymbol c)
     (QuoteTokenAddr c) (PairCreatedAt c) (PriceNative c) (PriceUSD c)
     (LiquidityUSD c) (PriceChangeM5 c) (PriceChangeH1 c) (VolumeM5 c)
     (M5BuySellRatio c) (PairURL c)
     (NormM5Change c) (NormH1Change c) (NormM5Volume c) (NormM5BuySellRatio c)
     (NormLiquidity c) s.

(** The five assignments [c.NormM5Change = ...] to [c.NormLiquidity = ...]
    on a copy of [c]. *)
Definition withNorms {F : Type} (c : t F) (m5 h1 vol ratio liq : F) : t F :=
  mk (PairAddress c) (BaseTokenSymbol c) (BaseTokenAddr c) (QuoteTokenSymbol c)
     (QuoteTokenAddr c) (PairCreatedAt c) (PriceNative c) (PriceUSD c)
     (LiquidityUSD c) (PriceChangeM5 c) (PriceChangeH1 c) (VolumeM5 c)
     (M5BuySellRatio c) (PairURL c)
     m5 h1 vol ratio liq (Score c).
End TokenInfo.

Module PaperWallet.
Record t (F : Type) : Type := mk {
  SOLBalance : F;
  InitialSOL : F;
  TradesMade : Z;
  ProfitableTrades : Z;
  TotalFeesPaid : F
}.
End PaperWallet.

Module CurrentHolding.
Record t (F : Type) : Type := mk {
  Active : bool;
  BaseTokenSymbol : string;
  BaseTokenAddr : string;
  QuoteTokenSymbol : string;
  QuoteTokenAddr : string;
  PairAddress : string;
  AmountToken : F;
  EntryPriceNative : F;
  EntryTime : Go.Time;
  EntryLiquidityUSD : F;
  PeakPriceNative : F
}.

(** [holding.PeakPriceNative = p]. *)
Definition withPeakPriceNative {F : Type} (h : t F) (p : F) : t F :=
  mk (Active h) (BaseTokenSymbol h) (BaseTokenAddr h) (QuoteTokenSymbol h)
     (QuoteTokenAddr h) (PairAddress h) (AmountToken h) (EntryPriceNative h)
     (EntryTime h) (EntryLiquidityUSD h) p.

(** [holding.Active = a]. *)
Definition withActive {F : Type} (h : t F) (a : bool) : t F :=
  mk a (BaseTokenSymbol h) (BaseTokenAddr h) (QuoteTokenSymbol h)
     (QuoteTokenAddr h) (PairAddress h) (AmountToken h) (EntryPriceNative h)
     (EntryTime h) (EntryLiquidityUSD h) (PeakPriceNative h).
End CurrentHolding.

(** The reason of a SELL.  The program builds a string with [fmt.Sprintf]
    and tests it against the empty string; every format starts with
    literal text, so a reason is set exactly when the string is not
    empty.  The formatted numbers are kept as values. *)
Inductive SellReason (F : Type) : Type :=
| LiquidityDrop (liquidityThreshold : F)
| TrailingStopLoss (trailingStopPrice : F)
| TakeProfit
| MomentumFade.
Arguments TakeProfit {F}.
Arguments MomentumFade {F}.

Inductive Action : Type := BUY | SELL.

Module TradeLogEntry.
Record t (F : Type) : Type := mk {
  Timestamp : Go.Time;
  Action : Action;
  Symbol : string;
  PairAddress : string;
  SOLAmount : F;
  TokenAmount : F;
  PriceNative : F;
  FeeSOL : F;
  ProfitLossSOL : F;
  Reason : option (SellReason F)
}.
End TradeLogEntry.

Module WalletLogEntry.
Record t (F : Type) : Type := mk {
  Timestamp : Go.Time;
  SOLBalance : F;
  Holding : CurrentHolding.t F;
  TradesMade : Z;
  FeesPaid : F
}.
End WalletLogEntry.

(** The global state (lines 139-140). *)
Record State (F : Type) : Type := mkState {
  wallet : PaperWallet.t F;
  holding : CurrentHolding.t F
}.

(** What a cycle writes: console lines ([log.Printf]) and the records
    appended to trades.json and wallet_log.json. *)
Inductive Effect (F : Type) : Type :=
| LogFetchError (err : string)
| LogPairNotFound (symbol pairAddress : string)
| LogSellSignal (symbol : string) (reason : SellReason F)
| LogTradeAction (entry : TradeLogEntry.t F)
| LogHolding (h : CurrentHolding.t F) (currentPrice trailingStop liquidity : F)
| LogTopScorers (top : list (TokenInfo.t F))
| LogBuySignal (symbol : string) (score : F)
| LogInsufficientSOL (balance solToSpend : F)
| LogNoBuy (symbol : string) (score : F)
| LogNoCandidates
| LogWalletState (profitable : F) (entry : WalletLogEntry.t F).
Arguments LogFetchError {F}.
Arguments LogPairNotFound {F}.
Arguments LogNoCandidates {F}.

#[local] Unset Maximal Implicit Insertion.
#[local] Unset Implicit Arguments.

(** ** The program *)

Section Strategy.

Context {F : Type} `{Float64 F} `{Strconv F} `{SortSlice}.

Local Open Scope float64_scope.

(** [parseFloat] (lines 159-165). *)
Definition parseFloat (val : string) (defaultVal : F) : F :=
  match ParseFloat val with
  | Some f => f
  | None => defaultVal
  end.

(** [calculateBuySellRatio] (lines 167-173). *)
Definition calculateBuySellRatio (buys sells : Z) : F :=
  let totalTxns := Go.add buys sells in
  if (totalTxns =? 0)%Z then fconst 0.5
  else float64_of_int buys / float64_of_int totalTxns.

(** [normalize] (lines 175-180). *)
Definition normalize (value min max : F) : F :=
  if max - min =? fconst 0 then fconst 0
  else (value - min) / (max - min).

(** [profitabilityPercent] (lines 246-251), on the global [wallet]. *)
Definition profitabilityPercent (w : PaperWallet.t F) : F :=
  if (PaperWallet.TradesMade w =? 0)%Z then fconst 0.0
  else float64_of_int (PaperWallet.ProfitableTrades w)
         / float64_of_int (PaperWallet.TradesMade w) * fconst 100.0.

(** [logWalletState] (lines 225-244): the console line carries the
    profitable-trade percentage, the JSON record a copy of [holding]. *)
Definition logWalletState (now : Go.Time) (st : State F) : Effect F :=
  LogWalletState (profitabilityPercent (wallet st))
    (WalletLogEntry.mk now
       (PaperWallet.SOLBalance (wallet st))
       (holding st)
       (PaperWallet.TradesMade (wallet st))
       (PaperWallet.TotalFeesPaid (wallet st))).

(** The zero [time.Time] (January 1, year 1), in nanoseconds since the
    Unix epoch. *)
Definition zeroTime : Go.Time := Go.Unix (-62135596800).

(** [initPaperTrading] (lines 143-155). *)
Definition initPaperTrading (now : Go.Time) : State F * list (Effect F) :=
  let st :=
    mkState
      (PaperWallet.mk (fconst 10.0) (fconst 10.0) 0 0 (fconst 0.0))
      (CurrentHolding.mk false "" "" "" "" "" (fconst 0) (fconst 0) zeroTime
         (fconst 0) (fconst 0)) in
  (st, [logWalletState now st]).

(** *** Scoring (lines 296-343) *)

(** The running minimum and maximum of one raw metric over
    [candidates[1:]], started at [candidates[0]]. *)
Definition batchMin (raw : TokenInfo.t F -> F) (c0 : TokenInfo.t F)
    (rest : list (TokenInfo.t F)) : F :=
  fold_left (fun m c => mathMin m (raw c)) rest (raw c0).

Definition batchMax (raw : TokenInfo.t F -> F) (c0 : TokenInfo.t F)
    (rest : list (TokenInfo.t F)) : F :=
  fold_left (fun m c => mathMax m (raw c)) rest (raw c0).

(** The body of the second loop: the five normalized components, then the
    weighted score. *)
Definition scoreCandidate
    (minM5 maxM5 minH1 maxH1 minVol maxVol minRatio maxRatio minLiq maxLiq : F)
    (c : TokenInfo.t F) : TokenInfo.t F :=
  let c :=
    TokenInfo.withNorms c
      (normalize (TokenInfo.PriceChangeM5 c) minM5 maxM5)
      (normalize (TokenInfo.PriceChangeH1 c) minH1 maxH1)
      (normalize (TokenInfo.VolumeM5 c) minVol maxVol)
      (normalize (TokenInfo.M5BuySellRatio c) minRatio maxRatio)
      (normalize (TokenInfo.LiquidityUSD c) minLiq maxLiq) in
  TokenInfo.withScore c
    (TokenInfo.NormM5Change c * fconst wM5Change
     + TokenInfo.NormH1Change c * fconst wH1Change
     + TokenInfo.NormM5Volume c * fconst wM5Volume
     + TokenInfo.NormM5BuySellRatio c * fconst wM5BuySellRatio
     + TokenInfo.NormLiquidity c * fconst wLiquidity).

Definition calculateScores (candidates : list (TokenInfo.t F))
    : list (TokenInfo.t F) :=
  if (length candidates <? 2)%nat then
    map (fun c => TokenInfo.withScore c (fconst 0)) candidates
  else
    match candidates with
    | [] => [] (* not reached: the slice has two elements or more *)
    | c0 :: rest =>
        let minM5 := batchMin TokenInfo.PriceChangeM5 c0 rest in
        let maxM5 := batchMax TokenInfo.PriceChangeM5 c0 rest in
        let minH1 := batchMin TokenInfo.PriceChangeH1 c0 rest in
        let maxH1 := batchMax TokenInfo.PriceChangeH1 c0 rest in
        let minVol := batchMin TokenInfo.VolumeM5 c0 rest in
        let maxVol := batchMax TokenInfo.VolumeM5 c0 rest in
        let minRatio := batchMin TokenInfo.M5BuySellRatio c0 rest in
        let maxRatio := batchMax TokenInfo.M5BuySellRatio c0 rest in
        let minLiq := batchMin TokenInfo.LiquidityUSD c0 rest in
        let maxLiq := batchMax TokenInfo.LiquidityUSD c0 rest in
        map (scoreCandidate minM5 maxM5 minH1 maxH1 minVol maxVol
               minRatio maxRatio minLiq maxLiq) candidates
    end.

(** *** Step 2 of [runScan]: filter and process the pairs (lines 357-391) *)

(** [time.Duration(minPairAgeHours * float64(time.Hour))], a constant. *)
Definition minPairAge : Go.Duration :=
  Qfloor (minPairAgeHours * inject_Z Go.Hour)%Q.

(** One iteration of the loop over [pairs]; [acc] holds [candidates] and
    [currentPairData]. *)
Definition processPair (now : Go.Time)
    (acc : list (TokenInfo.t F) * gmap string (TokenInfo.t F))
    (pair : Pair.t F) : list (TokenInfo.t F) * gmap string (TokenInfo.t F) :=
  let minTime := (now - minPairAge)%Z in
  if negb (String.eqb (Token.Symbol (Pair.QuoteToken pair)) "SOL") then acc
  else if Liquidity.Usd (Pair.Liquidity pair) <? fconst minLiquidityUSD then acc
  else if Volume.M5 (Pair.Volume pair) <? fconst minVolume5mUSD then acc
  else
    let createdAt := Go.Unix (Go.quot (Pair.PairCreatedAt pair) 1000) in
    if (createdAt >? minTime)%Z then acc
    else
      let priceNative := parseFloat (Pair.PriceNative pair) (fconst (-1.0)) in
      if priceNative <=? fconst 0 then acc
      else
        let info :=
          TokenInfo.mk
            (Pair.PairAddress pair)
            (Token.Symbol (Pair.BaseToken pair))
            (Token.Address (Pair.BaseToken pair))
            (Token.Symbol (Pair.QuoteToken pair))
            (Token.Address (Pair.QuoteToken pair))
            createdAt
            priceNative
            (parseFloat (Pair.PriceUsd pair) (fconst 0.0))
            (Liquidity.Usd (Pair.Liquidity pair))
            (PriceChange.M5 (Pair.PriceChange pair))
            (PriceChange.H1 (Pair.PriceChange pair))
            (Volume.M5 (Pair.Volume pair))
            (calculateBuySellRatio
               (BuysSells.Buys (Transactions.M5 (Pair.Txns pair)))
               (BuysSells.Sells (Transactions.M5 (Pair.Txns pair))))
            (Pair.URL pair)
            (fconst 0) (fconst 0) (fconst 0) (fconst 0) (fconst 0) (fconst 0) in
        (fst acc ++ [info], <[Pair.PairAddress pair := info]> (snd acc)).

Definition filterPairs (now : Go.Time) (pairs : list (Pair.t F))
    : list (TokenInfo.t F) * gmap string (TokenInfo.t F) :=
  fold_left (processPair now) pairs ([], ∅).

(** *** Step 4 of [runScan]: exit logic (lines 399-478) *)

(** The exit conditions in their priority order (lines 415-427); [h] is the
    holding after its peak price was updated. *)
Definition exitReason (now : Go.Time) (h : CurrentHolding.t F)
    (currentData : TokenInfo.t F) : option (SellReason F) :=
  let currentPrice := TokenInfo.PriceNative currentData in
  let liquidityThreshold :=
    CurrentHolding.EntryLiquidityUSD h * fconst (1.0 - liquidityDropPercent)%Q in
  let trailingStopPrice :=
    CurrentHolding.PeakPriceNative h * fconst (1.0 - trailingStopLossPercent)%Q in
  let takeProfitPrice :=
    CurrentHolding.EntryPriceNative h * fconst takeProfitThreshold in
  if TokenInfo.LiquidityUSD currentData <? liquidityThreshold then
    Some (LiquidityDrop liquidityThreshold)
  else if currentPrice <=? trailingStopPrice then
    Some (TrailingStopLoss trailingStopPrice)
  else if currentPrice >=? takeProfitPrice then
    Some TakeProfit
  else if (TokenInfo.PriceChangeM5 currentData <? fconst momentumFadeExitM5)
          && (now - CurrentHolding.EntryTime h >? 5 * Go.Minute)%Z then
    Some MomentumFade
  else None.

(** "Execute Sell if reason found" (lines 434-470). *)
Definition executeSell (now : Go.Time) (st : State F)
    (sellReason : SellReason F) (sellPrice : F) : State F * list (Effect F) :=
  let h := holding st in
  let w := wallet st in
  let solReceivedGross := CurrentHolding.AmountToken h * sellPrice in
  let feeAmount := solReceivedGross * fconst simulatedFeePercent in
  let solReceivedNet := solReceivedGross - feeAmount in
  let initialBuyCostBasis := fconst tradeSizeSOL in
  let profitLoss := solReceivedNet - initialBuyCostBasis in
  let w' :=
    PaperWallet.mk
      (PaperWallet.SOLBalance w + solReceivedNet)
      (PaperWallet.InitialSOL w)
      (Go.add (PaperWallet.TradesMade w) 1)
      (if profitLoss >? fconst 0
       then Go.add (PaperWallet.ProfitableTrades w) 1
       else PaperWallet.ProfitableTrades w)
      (PaperWallet.TotalFeesPaid w + feeAmount) in
  let tradeLog :=
    TradeLogEntry.mk now SELL
      (CurrentHolding.BaseTokenSymbol h) (CurrentHolding.PairAddress h)
      solReceivedGross (CurrentHolding.AmountToken h) sellPrice feeAmount
      profitLoss (Some sellReason) in
  (mkState w' (CurrentHolding.withActive h false),
   [LogSellSignal (CurrentHolding.BaseTokenSymbol h) sellReason;
    LogTradeAction tradeLog]).

(** "Update peak price for trailing SL" (line 410). *)
Definition updatePeak (h : CurrentHolding.t F) (currentData : TokenInfo.t F)
    : CurrentHolding.t F :=
  CurrentHolding.withPeakPriceNative h
    (mathMax (CurrentHolding.PeakPriceNative h)
       (TokenInfo.PriceNative currentData)).

(** The whole of step 4: the new state, [walletUpdated], and what was
    logged. *)
Definition exitLogic (now : Go.Time)
    (currentPairData : gmap string (TokenInfo.t F)) (st : State F)
    : State F * bool * list (Effect F) :=
  let h := holding st in
  if CurrentHolding.Active h then
    match currentPairData !! CurrentHolding.PairAddress h with
    | None =>
        (* !found: sellReason stays empty, nothing else runs *)
        (st, false,
         [LogPairNotFound (CurrentHolding.BaseTokenSymbol h)
            (CurrentHolding.PairAddress h)])
    | Some currentData =>
        let h1 := updatePeak h currentData in
        let currentPrice := TokenInfo.PriceNative currentData in
        let sellPrice := currentPrice in
        let st1 := mkState (wallet st) h1 in
        match exitReason now h1 currentData with
        | Some sellReason =>
            let '(st2, log) := executeSell now st1 sellReason sellPrice in
            (st2, true, log)
        | None =>
            (st1, false,
             [LogHolding h1 (TokenInfo.PriceNative currentData)
                (CurrentHolding.PeakPriceNative h1
                 * fconst (1.0 - trailingStopLossPercent)%Q)
                (TokenInfo.LiquidityUSD currentData)])
        end
    end
  else (st, false, []).

(** *** Step 5 of [runScan]: entry logic (lines 482-545) *)

(** The [less] function handed to [sort.Slice] (line 485). *)
Definition scoreGreater (a b : TokenInfo.t F) : bool :=
  TokenInfo.Score a >? TokenInfo.Score b.

(** "Sort by score descending" (lines 484-486). *)
Definition rankCandidates (scoredCandidates : list (TokenInfo.t F))
    : list (TokenInfo.t F) :=
  sort_Slice scoreGreater scoredCandidates.

(** [printTopScorers] (lines 559-578). *)
Definition printTopScorers (scoredCandidates : list (TokenInfo.t F)) : Effect F :=
  LogTopScorers (take topScorersCount scoredCandidates).

(** The BUY of lines 497-538, reached once the score and the first balance
    test have passed. *)
Definition executeBuy (now : Go.Time) (st : State F)
    (topCandidate : TokenInfo.t F) : State F * bool * list (Effect F) :=
  let w := wallet st in
  let entryPrice := TokenInfo.PriceNative topCandidate in
  let tokenAmountToBuy := fconst tradeSizeSOL / entryPrice in
  let feeAmount := fconst (tradeSizeSOL * simulatedFeePercent)%Q in
  let solToSpend := fconst tradeSizeSOL + feeAmount in
  if PaperWallet.SOLBalance w <? solToSpend then
    (st, false, [LogInsufficientSOL (PaperWallet.SOLBalance w) solToSpend])
  else
    let w' :=
      PaperWallet.mk
        (PaperWallet.SOLBalance w - solToSpend)
        (PaperWallet.InitialSOL w)
        (PaperWallet.TradesMade w)
        (PaperWallet.ProfitableTrades w)
        (PaperWallet.TotalFeesPaid w + feeAmount) in
    let h' :=
      CurrentHolding.mk true
        (TokenInfo.BaseTokenSymbol topCandidate)
        (TokenInfo.BaseTokenAddr topCandidate)
        (TokenInfo.QuoteTokenSymbol topCandidate)
        (TokenInfo.QuoteTokenAddr topCandidate)
        (TokenInfo.PairAddress topCandidate)
        tokenAmountToBuy
        entryPrice
        now
        (TokenInfo.LiquidityUSD topCandidate)
        entryPrice in
    let tradeLog :=
      TradeLogEntry.mk now BUY
        (CurrentHolding.BaseTokenSymbol h') (CurrentHolding.PairAddress h')
        (fconst tradeSizeSOL) (CurrentHolding.AmountToken h')
        (CurrentHolding.EntryPriceNative h') feeAmount (fconst 0) None in
    (mkState w' h', true, [LogTradeAction tradeLog]).

Definition entryLogic (now : Go.Time)
    (scoredCandidates : list (TokenInfo.t F)) (st : State F)
    : State F * bool * list (Effect F) :=
  if negb (CurrentHolding.Active (holding st))
     && (0 <? length scoredCandidates)%nat then
    let scoredCandidates := rankCandidates scoredCandidates in
    let log0 := [printTopScorers scoredCandidates] in
    match scoredCandidates with
    | topCandidate :: _ =>
        if (TokenInfo.Score topCandidate >=? fconst minScoreToEnter)
           && (PaperWallet.SOLBalance (wallet st) >=? fconst tradeSizeSOL) then
          let '(st', walletUpdated, log) := executeBuy now st topCandidate in
          (st', walletUpdated,
           log0
           ++ [LogBuySignal (TokenInfo.BaseTokenSymbol topCandidate)
                 (TokenInfo.Score topCandidate)]
           ++ log)
        else
          (st, false,
           log0
           ++ [LogNoBuy (TokenInfo.BaseTokenSymbol topCandidate)
                 (TokenInfo.Score topCandidate)])
    | [] =>
        (* scoredCandidates[0] of an empty slice: not reached, [sort.Slice]
           permutes a slice that was not empty *)
        (st, false, log0)
    end
  else if (length scoredCandidates =? 0)%nat
          && negb (CurrentHolding.Active (holding st)) then
    (st, false, [LogNoCandidates])
  else (st, false, []).

(** *** [runScan] (lines 346-555)

    [fetched] is what [fetchDexScreenerPairs] returned: an error or the
    pairs.  [now] is the cycle's reading of the clock: the readings of
    [time.Now()] within one cycle are taken as one instant. *)
Definition runScan (fetched : string + list (Pair.t F)) (now : Go.Time)
    (st : State F) : State F * list (Effect F) :=
  match fetched with
  | inl err => (st, [LogFetchError err])
  | inr pairs =>
      let '(candidates, currentPairData) := filterPairs now pairs in
      let scoredCandidates := calculateScores candidates in
      let '(st1, walletUpdated1, log1) := exitLogic now currentPairData st in
      let '(st2, walletUpdated2, log2) := entryLogic now scoredCandidates st1 in
      let log3 :=
        if walletUpdated1 || walletUpdated2
        then [logWalletState now st2] else [] in
      (st2, log1 ++ log2 ++ log3)
  end.

(** The ticker loop of [main] (lines 587-596): one [runScan] per tick. *)
Fixpoint runCycles (ticks : list ((string + list (Pair.t F)) * Go.Time))
    (st : State F) : State F * list (Effect F) :=
  match ticks with
  | [] => (st, [])
  | (fetched, now) :: ticks =>
      let '(st1, log1) := runScan fetched now st in
      let '(st2, log2) := runCycles ticks st1 in
      (st2, log1 ++ log2)
  end.

End Strategy.

(** ** Executable instances of the library interface

    A stand-in for [strconv.ParseFloat] on plain decimal numerals (an
    optional sign, digits, at most one point); every other spelling is
    reported as an error.  The theorems below hold for every [Strconv]. *)

Definition digit_of_ascii (c : ascii) : option Z :=
  let n := Z.of_N (N_of_ascii c) in
  if (48 <=? n) && (n <=? 57) then Some (n - 48) else None.

Fixpoint parseDigits (s : string) (mant : Z) (den : positive)
    (point seen : bool) : option Q :=
  match s with
  | EmptyString => if seen then Some (mant # den) else None
  | String c s' =>
      if Ascii.eqb c "." then
        if point then None else parseDigits s' mant den true seen
      else
        match digit_of_ascii c with
        | Some d =>
            parseDigits s' (10 * mant + d)
              (if point then (10 * den)%positive else den) point true
        | None => None
        end
  end.

Definition parseDecimal (s : string) : option Q :=
  match s with
  | String "-" s' => option_map Qopp (parseDigits s' 0 1 false false)
  | String "+" s' => parseDigits s' 0 1 false false
  | _ => parseDigits s 0 1 false false
  end.

#[export] Instance ExactStrconv : Strconv Q := {|
  ParseFloat := parseDecimal
|}.

#[export] Instance Binary64Strconv : Strconv float := {|
  ParseFloat := fun s => option_map B64.of_Q (parseDecimal s)
|}.

(** ** Observing a cycle *)

Section Observations.

Context {F : Type}.

(** The records a cycle appended to trades.json, in order. *)
Definition tradeEntry (e : Effect F) : option (TradeLogEntry.t F) :=
  match e with
  | LogTradeAction entry => Some entry
  | _ => None
  end.

Definition tradeEntries (log : list (Effect F)) : list (TradeLogEntry.t F) :=
  omap tradeEntry log.

(** The position transitions of a cycle: the actions of its trades. *)
Definition tradeActions (log : list (Effect F)) : list Action :=
  map TradeLogEntry.Action (tradeEntries log).

(** The reasons of the SELLs of a cycle. *)
Definition sellReasons (log : list (Effect F)) : list (SellReason F) :=
  omap TradeLogEntry.Reason (tradeEntries log).

(** The records a cycle appended to wallet_log.json, and the percentages
    shown with them. *)
Definition walletEntry (e : Effect F) : option (WalletLogEntry.t F) :=
  match e with
  | LogWalletState _ entry => Some entry
  | _ => None
  end.

Definition walletEntries (log : list (Effect F)) : list (WalletLogEntry.t F) :=
  omap walletEntry log.

Definition shownPercent (e : Effect F) : option F :=
  match e with
  | LogWalletState p _ => Some p
  | _ => None
  end.

Definition shownPercents (log : list (Effect F)) : list F :=
  omap shownPercent log.

End Observations.

(** ** Sample data *)

Module Sample.

Section Generic.

Context {F : Type} `{Float64 F}.

(** A Solana pair quoted in SOL. *)
Definition pair (address symbol priceNative : string)
    (liquidityUsd volumeM5 changeM5 changeH1 : Q) (buys sells : Z)
    (createdAtMs : Z) : Pair.t F :=
  Pair.mk "solana" "raydium" "" address
    (Token.mk (symbol ++ "-mint") symbol symbol)
    (Token.mk "So11111111111111111111111111111111111111112" "Wrapped SOL" "SOL")
    priceNative ""
    (Transactions.mk (BuysSells.mk buys sells) (BuysSells.mk 0 0)
       (BuysSells.mk 0 0) (BuysSells.mk 0 0))
    (Volume.mk (fconst 0) (fconst 0) (fconst 0) (fconst volumeM5))
    (PriceChange.mk (fconst changeM5) (fconst changeH1) (fconst 0) (fconst 0))
    (Liquidity.mk (fconst liquidityUsd) (fconst 0) (fconst 0))
    (fconst 0) createdAtMs.

(** A wallet holding [balance] SOL after [trades] closed trades. *)
Definition walletOf (balance fees : Q) (trades profitable : Z) : PaperWallet.t F :=
  PaperWallet.mk (fconst balance) (fconst 10.0) trades profitable (fconst fees).

(** An open position in [address]. *)
Definition position (address symbol : string)
    (amount entryPrice entryLiquidity peak : Q) (entryTime : Go.Time)
    : CurrentHolding.t F :=
  CurrentHolding.mk true symbol (symbol ++ "-mint") "SOL"
    "So11111111111111111111111111111111111111112" address
    (fconst amount) (fconst entryPrice) entryTime (fconst entryLiquidity)
    (fconst peak).

(** The clock: some instant, and pairs created two hours before it. *)
Definition now : Go.Time := Go.Unix 1700000000.
Definition created : Z := (1700000000 - 7200) * 1000.

(** A position in AAA, bought a minute ago at 0.01 SOL when the pool held
    10000 USD, with 9 SOL left in the wallet. *)
Definition heldAAA : State F :=
  mkState (walletOf 9.0 0.003 0 0)
    (position "PAIR_A" "AAA" 100 0.01 10000 0.01 (now - Go.Minute)).

(** A scan in which AAA's pool shrank to 3000 USD while its price rose by
    5%, and BBB leads every scored metric. *)
Definition scanAB : list (Pair.t F) :=
  [ pair "PAIR_A" "AAA" "0.0105" 3000 600 1 1 10 10 created;
    pair "PAIR_B" "BBB" "0.5" 9000 1000 8 9 30 10 created ].

(** A scan without AAA. *)
Definition scanBC : list (Pair.t F) :=
  [ pair "PAIR_B" "BBB" "0.5" 9000 1000 8 9 30 10 created;
    pair "PAIR_C" "CCC" "0.25" 4000 700 2 3 10 10 created ].

(** The scenario of the trailing stop: entry at 1.0, peak at 1.2. *)
Definition heldPeak : State F :=
  mkState (walletOf 9.0 0.003 0 0)
    (position "PAIR_P" "PPP" 1 1.0 5000 1.2 (now - Go.Minute)).

(** A scan quoting PPP at [price], its pool unchanged. *)
Definition scanPeak (price : string) : list (Pair.t F) :=
  [ pair "PAIR_P" "PPP" price 5000 600 1 1 10 10 created;
    pair "PAIR_B" "BBB" "0.5" 9000 1000 8 9 30 10 created ].

(** A scan in which AAA's pool shrank and no candidate scores 0.65: AAA
    leads the two price changes (0.45), BBB the other metrics (0.55). *)
Definition scanMixed : list (Pair.t F) :=
  [ pair "PAIR_A" "AAA" "0.0105" 3000 600 8 9 10 10 created;
    pair "PAIR_B" "BBB" "0.5" 9000 1000 1 1 30 10 created ].




(** A candidate scored [score]. *)
Definition scoredAs (address : string) (score : Q) : TokenInfo.t F :=
  TokenInfo.mk address address "" "SOL" "" 0 (fconst 1) (fconst 0)
    (fconst 3000) (fconst 0) (fconst 0) (fconst 600) (fconst 0.5) ""
    (fconst 0) (fconst 0) (fconst 0) (fconst 0) (fconst 0) (fconst score).

(** Thirteen scored candidates: the first scores 0.1, the twelve after it
    0.9 each. *)
Definition thirteen : list (TokenInfo.t F) :=
  scoredAs "c0" 0.1
  :: map (fun address => scoredAs address 0.9)
       ["c1"; "c2"; "c3"; "c4"; "c5"; "c6"; "c7"; "c8"; "c9"; "c10"; "c11"; "c12"].

(** A scan of thirteen eligible pairs: T0 is last in every scored metric,
    the twelve pairs after it are equal in all of them. *)
Definition scanThirteen : list (Pair.t F) :=
  pair "PAIR_0" "T0" "0.5" 3000 600 1 1 10 10 created
  :: map (fun n => pair ("PAIR_" ++ n) ("T" ++ n) "0.5" 9000 1000 8 9 30 10 created)
       ["1"; "2"; "3"; "4"; "5"; "6"; "7"; "8"; "9"; "10"; "11"; "12"].

(** An idle wallet with [balance] SOL. *)
Definition idle (balance : Q) : State F :=
  mkState (walletOf balance 0 0 0)
    (CurrentHolding.mk false "" "" "" "" "" (fconst 0) (fconst 0) 0
       (fconst 0) (fconst 0)).

End Generic.

End Sample.

(** ** The specification's words (sections 4.1 and 4.3) *)

Section SpecificationWords.

Context {F : Type} `{Float64 F}.

Local Open Scope float64_scope.

(** Current USD liquidity < entry liquidity x (1 - liquidity-drop
    fraction). *)
Definition liquidityDropCond (h : CurrentHolding.t F) (cd : TokenInfo.t F) : bool :=
  TokenInfo.LiquidityUSD cd
  <? CurrentHolding.EntryLiquidityUSD h * fconst (1.0 - liquidityDropPercent)%Q.

(** Current native price <= peak native price x (1 - trailing-stop
    fraction). *)
Definition trailingStopCond (h : CurrentHolding.t F) (cd : TokenInfo.t F) : bool :=
  TokenInfo.PriceNative cd
  <=? CurrentHolding.PeakPriceNative h * fconst (1.0 - trailingStopLossPercent)%Q.

(** Current native price >= entry native price x take-profit multiplier. *)
Definition takeProfitCond (h : CurrentHolding.t F) (cd : TokenInfo.t F) : bool :=
  TokenInfo.PriceNative cd
  >=? CurrentHolding.EntryPriceNative h * fconst takeProfitThreshold.

(** The 5-minute change is below the floor and the position was held for
    more than five minutes. *)
Definition momentumFadeCond (now : Go.Time) (h : CurrentHolding.t F)
    (cd : TokenInfo.t F) : bool :=
  (TokenInfo.PriceChangeM5 cd <? fconst momentumFadeExitM5)
  && (now - CurrentHolding.EntryTime h >? 5 * Go.Minute)%Z.

(** What a BUY costs: the trade size plus the fee on it. *)
Definition buyCost : F :=
  fconst tradeSizeSOL + fconst (tradeSizeSOL * simulatedFeePercent)%Q.


End SpecificationWords.

(** ** How a cycle can go *)

Section Outcomes.

Context {F : Type} `{Float64 F} `{Strconv F} `{SortSlice}.

Local Open Scope float64_scope.

(** The four ways through the exit logic. *)
Variant ExitOutcome (now : Go.Time) (cpd : gmap string (TokenInfo.t F))
    (st : State F) : State F * bool * list (Effect F) -> Prop :=
| ExitIdle :
    CurrentHolding.Active (holding st) = false ->
    ExitOutcome now cpd st (st, false, [])
| ExitNoData :
    CurrentHolding.Active (holding st) = true ->
    cpd !! CurrentHolding.PairAddress (holding st) = None ->
    ExitOutcome now cpd st
      (st, false,
       [LogPairNotFound (CurrentHolding.BaseTokenSymbol (holding st))
          (CurrentHolding.PairAddress (holding st))])
| ExitKept (cd : TokenInfo.t F) :
    CurrentHolding.Active (holding st) = true ->
    cpd !! CurrentHolding.PairAddress (holding st) = Some cd ->
    exitReason now (updatePeak (holding st) cd) cd = None ->
    ExitOutcome now cpd st
      (mkState (wallet st) (updatePeak (holding st) cd), false,
       [LogHolding (updatePeak (holding st) cd) (TokenInfo.PriceNative cd)
          (CurrentHolding.PeakPriceNative (updatePeak (holding st) cd)
           * fconst (1.0 - trailingStopLossPercent)%Q)
          (TokenInfo.LiquidityUSD cd)])
| ExitSold (cd : TokenInfo.t F) (reason : SellReason F) :
    CurrentHolding.Active (holding st) = true ->
    cpd !! CurrentHolding.PairAddress (holding st) = Some cd ->
    exitReason now (updatePeak (holding st) cd) cd = Some reason ->
    ExitOutcome now cpd st
      (fst (executeSell now (mkState (wallet st) (updatePeak (holding st) cd))
              reason (TokenInfo.PriceNative cd)),
       true,
       snd (executeSell now (mkState (wallet st) (updatePeak (holding st) cd))
              reason (TokenInfo.PriceNative cd))).

Lemma exitLogic_outcome now cpd st :
  ExitOutcome now cpd st (exitLogic now cpd st).
Proof.
  unfold exitLogic.
  destruct (CurrentHolding.Active (holding st)) eqn:Hact;
    [|now constructor].
  destruct (cpd !! CurrentHolding.PairAddress (holding st)) as [cd|] eqn:Hcd;
    [|now constructor].
  cbv zeta.
  destruct (exitReason now (updatePeak (holding st) cd) cd) as [r|] eqn:Hr.
  - now apply (ExitSold now cpd st cd r).
  - now apply ExitKept.
Qed.

(** The five ways through the entry logic. *)
Variant EntryOutcome (now : Go.Time) (scored : list (TokenInfo.t F))
    (st : State F) : State F * bool * list (Effect F) -> Prop :=
| EntryHeld :
    CurrentHolding.Active (holding st) = true ->
    EntryOutcome now scored st (st, false, [])
| EntryNoCandidates :
    CurrentHolding.Active (holding st) = false ->
    scored = [] ->
    EntryOutcome now scored st (st, false, [LogNoCandidates])
| EntryRejected (top : TokenInfo.t F) (rest : list (TokenInfo.t F)) :
    CurrentHolding.Active (holding st) = false ->
    rankCandidates scored = top :: rest ->
    (TokenInfo.Score top >=? fconst minScoreToEnter)
    && (PaperWallet.SOLBalance (wallet st) >=? fconst tradeSizeSOL) = false ->
    EntryOutcome now scored st
      (st, false,
       [printTopScorers (top :: rest);
        LogNoBuy (TokenInfo.BaseTokenSymbol top) (TokenInfo.Score top)])
| EntryInsufficient (top : TokenInfo.t F) (rest : list (TokenInfo.t F)) :
    CurrentHolding.Active (holding st) = false ->
    rankCandidates scored = top :: rest ->
    (TokenInfo.Score top >=? fconst minScoreToEnter)
    && (PaperWallet.SOLBalance (wallet st) >=? fconst tradeSizeSOL) = true ->
    (PaperWallet.SOLBalance (wallet st) <? buyCost) = true ->
    EntryOutcome now scored st
      (st, false,
       [printTopScorers (top :: rest);
        LogBuySignal (TokenInfo.BaseTokenSymbol top) (TokenInfo.Score top);
        LogInsufficientSOL (PaperWallet.SOLBalance (wallet st)) buyCost])
| EntryBought (top : TokenInfo.t F) (rest : list (TokenInfo.t F)) :
    CurrentHolding.Active (holding st) = false ->
    rankCandidates scored = top :: rest ->
    (TokenInfo.Score top >=? fconst minScoreToEnter)
    && (PaperWallet.SOLBalance (wallet st) >=? fconst tradeSizeSOL) = true ->
    (PaperWallet.SOLBalance (wallet st) <? buyCost) = false ->
    EntryOutcome now scored st
      (fst (fst (executeBuy now st top)), true,
       [printTopScorers (top :: rest);
        LogBuySignal (TokenInfo.BaseTokenSymbol top) (TokenInfo.Score top)]
       ++ snd (executeBuy now st top)).

Lemma rankCandidates_nil scored : rankCandidates scored = [] -> scored = [].
Proof.
  intros Hnil. apply Permutation_nil.
  rewrite <- Hnil. apply Permutation_sym, sort_Slice_Permutation.
Qed.

Lemma entryLogic_outcome now scored st :
  EntryOutcome now scored st (entryLogic now scored st).
Proof.
  unfold entryLogic.
  destruct (CurrentHolding.Active (holding st)) eqn:Hact; simpl.
  { rewrite andb_false_r. now constructor. }
  destruct scored as [|c scored]; simpl; [now constructor|].
  destruct (rankCandidates (c :: scored)) as [|top rest] eqn:Hrank.
  { apply rankCandidates_nil in Hrank. discriminate. }
  destruct ((TokenInfo.Score top >=? fconst minScoreToEnter)
            && (PaperWallet.SOLBalance (wallet st) >=? fconst tradeSizeSOL))
    eqn:Hgate.
  - unfold executeBuy. fold buyCost.
    destruct (PaperWallet.SOLBalance (wallet st) <? buyCost) eqn:Hfunds.
    + now apply (EntryInsufficient now _ st top rest).
    + pose proof (EntryBought now (c :: scored) st top rest Hact Hrank Hgate Hfunds)
        as Hb.
      unfold executeBuy in Hb. fold buyCost in Hb. rewrite Hfunds in Hb.
      exact Hb.
  - now apply (EntryRejected now _ st top rest).
Qed.

End Outcomes.

(** ** Facts shared by the properties below *)

Section CycleFacts.

Context {F : Type} `{Float64 F} `{Strconv F} `{SortSlice}.

Local Open Scope float64_scope.

Lemma runScan_inr pairs now st :
  runScan (inr pairs) now st =
  let cpd := snd (filterPairs now pairs) in
  let scored := calculateScores (fst (filterPairs now pairs)) in
  let r1 := exitLogic now cpd st in
  let r2 := entryLogic now scored (fst (fst r1)) in
  (fst (fst r2),
   snd r1 ++ snd r2
   ++ (if snd (fst r1) || snd (fst r2)
       then [logWalletState now (fst (fst r2))] else [])).
Proof.
  unfold runScan.
  destruct (filterPairs now pairs) as [cands cpd]. cbn [fst snd]. cbv zeta.
  destruct (exitLogic now cpd st) as [[st1 u1] log1]. cbn [fst snd].
  destruct (entryLogic now (calculateScores cands) st1) as [[st2 u2] log2].
  reflexivity.
Qed.

Lemma tradeEntries_app (l1 l2 : list (Effect F)) :
  tradeEntries (l1 ++ l2) = tradeEntries l1 ++ tradeEntries l2.
Proof. apply omap_app. Qed.

Lemma tradeActions_app (l1 l2 : list (Effect F)) :
  tradeActions (l1 ++ l2) = tradeActions l1 ++ tradeActions l2.
Proof. unfold tradeActions. now rewrite tradeEntries_app, map_app. Qed.

Lemma sellReasons_app (l1 l2 : list (Effect F)) :
  sellReasons (l1 ++ l2) = sellReasons l1 ++ sellReasons l2.
Proof. unfold sellReasons. now rewrite tradeEntries_app, omap_app. Qed.

Lemma walletEntries_app (l1 l2 : list (Effect F)) :
  walletEntries (l1 ++ l2) = walletEntries l1 ++ walletEntries l2.
Proof. apply omap_app. Qed.

(** The record the SELL block appends to trades.json. *)
Lemma executeSell_tradeEntries now st reason price :
  tradeEntries (snd (executeSell now st reason price))
  = [TradeLogEntry.mk now SELL
       (CurrentHolding.BaseTokenSymbol (holding st))
       (CurrentHolding.PairAddress (holding st))
       (CurrentHolding.AmountToken (holding st) * price)
       (CurrentHolding.AmountToken (holding st)) price
       (CurrentHolding.AmountToken (holding st) * price * fconst simulatedFeePercent)
       (CurrentHolding.AmountToken (holding st) * price
        - CurrentHolding.AmountToken (holding st) * price * fconst simulatedFeePercent
        - fconst tradeSizeSOL)
       (Some reason)].
Proof. reflexivity. Qed.

(** The BUY block when the balance covers the cost. *)
Lemma executeBuy_funded now st top :
  (PaperWallet.SOLBalance (wallet st) <? buyCost) = false ->
  executeBuy now st top =
  (mkState
     (PaperWallet.mk
        (PaperWallet.SOLBalance (wallet st) - buyCost)
        (PaperWallet.InitialSOL (wallet st))
        (PaperWallet.TradesMade (wallet st))
        (PaperWallet.ProfitableTrades (wallet st))
        (PaperWallet.TotalFeesPaid (wallet st)
         + fconst (tradeSizeSOL * simulatedFeePercent)%Q))
     (CurrentHolding.mk true
        (TokenInfo.BaseTokenSymbol top) (TokenInfo.BaseTokenAddr top)
        (TokenInfo.QuoteTokenSymbol top) (TokenInfo.QuoteTokenAddr top)
        (TokenInfo.PairAddress top)
        (fconst tradeSizeSOL / TokenInfo.PriceNative top)
        (TokenInfo.PriceNative top) now
        (TokenInfo.LiquidityUSD top) (TokenInfo.PriceNative top)),
   true,
   [LogTradeAction
      (TradeLogEntry.mk now BUY
         (TokenInfo.BaseTokenSymbol top) (TokenInfo.PairAddress top)
         (fconst tradeSizeSOL)
         (fconst tradeSizeSOL / TokenInfo.PriceNative top)
         (TokenInfo.PriceNative top)
         (fconst (tradeSizeSOL * simulatedFeePercent)%Q)
         (fconst 0) None)]).
Proof.
  intros Hfunds. unfold executeBuy. fold buyCost. now rewrite Hfunds.
Qed.

End CycleFacts.

(** Splits a cycle into the ways through its exit and entry logic. *)
Ltac cycle_cases pairs now st :=
  rewrite (runScan_inr pairs now st); cbv zeta;
  let o := fresh "Hout" in
  pose proof (exitLogic_outcome now (snd (filterPairs now pairs)) st) as o;
  destruct o;
  cbn [fst snd];
  match goal with
  | |- context [entryLogic ?n ?sc ?s] =>
      let o' := fresh "Hout" in
      pose proof (entryLogic_outcome n sc s) as o';
      destruct o'
  end;
  cbn [fst snd];
  try (rewrite executeBuy_funded by assumption; cbn [fst snd]).

(** ** Properties of the decision cycle *)

Section ControlFlow.

Context {F : Type} `{Float64 F} `{Strconv F} `{SortSlice}.

Local Open Scope float64_scope.

(** C1 (amended): a cycle whose fetch failed changes nothing.  Otherwise
    it runs the exit rule when a position is held at its start and then
    the entry rule when no position is held at that point, so it executes
    no trade, one BUY, one SELL, or one SELL followed by one BUY; never two
    trades of the same kind and never a BUY followed by a SELL. *)
Theorem C1_transitions_of_a_cycle fetched now st :
  let actions := tradeActions (snd (runScan fetched now st)) in
  let held := CurrentHolding.Active (holding st) in
  let held' := CurrentHolding.Active (holding (fst (runScan fetched now st))) in
  match fetched with
  | inl err => runScan fetched now st = (st, [LogFetchError err])
  | inr _ => True
  end
  /\ ((actions = [] /\ held' = held)
      \/ (actions = [BUY] /\ held = false /\ held' = true)
      \/ (actions = [SELL] /\ held = true /\ held' = false)
      \/ (actions = [SELL; BUY] /\ held = true /\ held' = true)).
Proof.
  cbv zeta. split; [now destruct fetched|].
  destruct fetched as [err|pairs]; [left; now split|].
  cycle_cases pairs now st.
  all: try match goal with
    | Hh : CurrentHolding.Active (holding (fst (executeSell _ _ _ _))) = true |- _ =>
        discriminate Hh
    | Hh : CurrentHolding.Active (holding ?s) = true,
      Hi : CurrentHolding.Active (holding ?s) = false |- _ => congruence
    | Hh : CurrentHolding.Active (holding (mkState _ (updatePeak _ _))) = false,
      Hi : CurrentHolding.Active (holding _) = true |- _ =>
        cbn in Hh; congruence
    end.
  all: rewrite ?tradeActions_app; cbn.
  all: auto 10.
Qed.

End ControlFlow.

Section ExitRule.

Context {F : Type} `{Float64 F} `{Strconv F} `{SortSlice}.

Local Open Scope float64_scope.

(** The code's chain of tests is the specification's priority list. *)
Lemma exitReason_priority now (h : CurrentHolding.t F) cd :
  exitReason now h cd =
  if liquidityDropCond h cd then
    Some (LiquidityDrop
            (CurrentHolding.EntryLiquidityUSD h * fconst (1.0 - liquidityDropPercent)%Q))
  else if trailingStopCond h cd then
    Some (TrailingStopLoss
            (CurrentHolding.PeakPriceNative h * fconst (1.0 - trailingStopLossPercent)%Q))
  else if takeProfitCond h cd then Some TakeProfit
  else if momentumFadeCond now h cd then Some MomentumFade
  else None.
Proof. reflexivity. Qed.

(** With the held pair in the scan, the cycle sells exactly when
    [exitReason] names a reason, and logs that reason. *)
Lemma runScan_held_found pairs now st cd :
  CurrentHolding.Active (holding st) = true ->
  snd (filterPairs now pairs) !! CurrentHolding.PairAddress (holding st) = Some cd ->
  match exitReason now (updatePeak (holding st) cd) cd with
  | Some reason =>
      sellReasons (snd (runScan (inr pairs) now st)) = [reason]
      /\ head (tradeActions (snd (runScan (inr pairs) now st))) = Some SELL
  | None =>
      sellReasons (snd (runScan (inr pairs) now st)) = []
      /\ tradeActions (snd (runScan (inr pairs) now st)) = []
      /\ fst (runScan (inr pairs) now st)
         = mkState (wallet st) (updatePeak (holding st) cd)
  end.
Proof.
  intros Hact Hcd.
  cycle_cases pairs now st; try congruence.
  all: match goal with
       | Hc : _ !! _ = Some ?c |- _ =>
           assert (c = cd) as -> by congruence; clear Hc
       end.
  all: match goal with Hr : exitReason _ _ _ = _ |- _ => rewrite Hr end.
  all: try match goal with
    | Hh : CurrentHolding.Active (holding (fst (executeSell _ _ _ _))) = true |- _ =>
        discriminate Hh
    | Hh : CurrentHolding.Active (holding (mkState _ (updatePeak _ _))) = false |- _ =>
        cbn in Hh; congruence
    end.
  all: rewrite ?sellReasons_app, ?tradeActions_app; cbn; auto.
Qed.

End ExitRule.

Section ExitProperties.

Context {F : Type} `{Float64 F} `{Strconv F} `{SortSlice}.

Local Open Scope float64_scope.

(** C3: with a position held and its pair in the scan, the SELL of the
    cycle reports the first condition that holds in the order liquidity
    drop, trailing stop, take profit, momentum fade.  A snapshot that
    meets both the liquidity-drop and the take-profit condition is sold as
    a liquidity drop. *)
Theorem C3_exit_priority pairs now st cd :
  CurrentHolding.Active (holding st) = true ->
  snd (filterPairs now pairs) !! CurrentHolding.PairAddress (holding st) = Some cd ->
  let h := updatePeak (holding st) cd in
  let reasons := sellReasons (snd (runScan (inr pairs) now st)) in
  let liquidityThreshold :=
    CurrentHolding.EntryLiquidityUSD (holding st)
    * fconst (1.0 - liquidityDropPercent)%Q in
  let trailingStopPrice :=
    CurrentHolding.PeakPriceNative h * fconst (1.0 - trailingStopLossPercent)%Q in
  (liquidityDropCond (holding st) cd = true ->
   takeProfitCond (holding st) cd = true ->
   reasons = [LiquidityDrop liquidityThreshold] /\ reasons <> [TakeProfit])
  /\ reasons =
     (if liquidityDropCond (holding st) cd then [LiquidityDrop liquidityThreshold]
      else if trailingStopCond h cd then [TrailingStopLoss trailingStopPrice]
      else if takeProfitCond (holding st) cd then [TakeProfit]
      else if momentumFadeCond now (holding st) cd then [MomentumFade]
      else []).
Proof.
  intros Hact Hcd h reasons liquidityThreshold trailingStopPrice.
  assert (reasons =
     (if liquidityDropCond (holding st) cd then [LiquidityDrop liquidityThreshold]
      else if trailingStopCond h cd then [TrailingStopLoss trailingStopPrice]
      else if takeProfitCond (holding st) cd then [TakeProfit]
      else if momentumFadeCond now (holding st) cd then [MomentumFade]
      else [])) as Hchain.
  { pose proof (runScan_held_found pairs now st cd Hact Hcd) as Hrun.
    rewrite exitReason_priority in Hrun. fold h in Hrun.
    change (liquidityDropCond h cd) with (liquidityDropCond (holding st) cd) in Hrun.
    change (takeProfitCond h cd) with (takeProfitCond (holding st) cd) in Hrun.
    change (momentumFadeCond now h cd)
      with (momentumFadeCond now (holding st) cd) in Hrun.
    subst reasons.
    destruct (liquidityDropCond (holding st) cd); [apply Hrun|].
    destruct (trailingStopCond h cd); [apply Hrun|].
    destruct (takeProfitCond (holding st) cd); [apply Hrun|].
    destruct (momentumFadeCond now (holding st) cd); apply Hrun. }
  split; [|exact Hchain].
  intros Hliq _. rewrite Hchain, Hliq. split; [reflexivity|discriminate].
Qed.

(** C6: the trailing stop compares the current price with the peak price
    (the maximum of the stored peak and the current price) times
    1 - 0.03, never with the entry price.  When that condition holds the
    cycle sells, as a trailing stop unless the liquidity drop, tested
    first, gives the reason; a SELL reported as a trailing stop only
    happens when the condition holds.  A cycle that does not sell stores
    that peak. *)
Theorem C6_trailing_stop_from_peak pairs now st cd :
  CurrentHolding.Active (holding st) = true ->
  snd (filterPairs now pairs) !! CurrentHolding.PairAddress (holding st) = Some cd ->
  let peak :=
    mathMax (CurrentHolding.PeakPriceNative (holding st)) (TokenInfo.PriceNative cd) in
  let trailingStopPrice := peak * fconst (1.0 - trailingStopLossPercent)%Q in
  let liquidityThreshold :=
    CurrentHolding.EntryLiquidityUSD (holding st)
    * fconst (1.0 - liquidityDropPercent)%Q in
  let triggered := TokenInfo.PriceNative cd <=? trailingStopPrice in
  let log := snd (runScan (inr pairs) now st) in
  (triggered = true ->
   head (tradeActions log) = Some SELL
   /\ sellReasons log =
      (if liquidityDropCond (holding st) cd
       then [LiquidityDrop liquidityThreshold]
       else [TrailingStopLoss trailingStopPrice]))
  /\ (forall stop, sellReasons log = [TrailingStopLoss stop] ->
      triggered = true /\ stop = trailingStopPrice)
  /\ (tradeActions log = [] ->
      CurrentHolding.PeakPriceNative
        (holding (fst (runScan (inr pairs) now st))) = peak).
Proof.
  intros Hact Hcd peak trailingStopPrice liquidityThreshold triggered log.
  pose proof (runScan_held_found pairs now st cd Hact Hcd) as Hrun.
  assert (tradeActions log = [] ->
          CurrentHolding.PeakPriceNative
            (holding (fst (runScan (inr pairs) now st))) = peak) as Hkept.
  { subst log. destruct (exitReason now (updatePeak (holding st) cd) cd).
    - destruct Hrun as [_ Hsell]. intros Hnone. rewrite Hnone in Hsell.
      discriminate Hsell.
    - destruct Hrun as (_ & _ & ->). reflexivity. }
  apply and_assoc. split; [|exact Hkept]. clear Hkept.
  pose proof (exitReason_priority now (updatePeak (holding st) cd) cd) as Hchain.
  change (liquidityDropCond (updatePeak (holding st) cd) cd)
    with (liquidityDropCond (holding st) cd) in Hchain.
  change (trailingStopCond (updatePeak (holding st) cd) cd) with triggered in Hchain.
  change (CurrentHolding.PeakPriceNative (updatePeak (holding st) cd)
          * fconst (1.0 - trailingStopLossPercent)%Q)
    with trailingStopPrice in Hchain.
  change (CurrentHolding.EntryLiquidityUSD (updatePeak (holding st) cd)
          * fconst (1.0 - liquidityDropPercent)%Q)
    with liquidityThreshold in Hchain.
  fold log in Hrun. rewrite Hchain in Hrun. clear Hchain.
  clearbody triggered log. revert Hrun.
  destruct (liquidityDropCond (holding st) cd), triggered; intros Hrun.
  - split; [intros _; split; apply Hrun|].
    intros stop Hstop. destruct Hrun as [Hrun _]. congruence.
  - split; [discriminate|].
    intros stop Hstop. destruct Hrun as [Hrun _]. congruence.
  - split; [intros _; split; apply Hrun|].
    intros stop Hstop. destruct Hrun as [Hrun _].
    split; [reflexivity|congruence].
  - split; [discriminate|].
    intros stop Hstop.
    destruct (takeProfitCond _ cd);
      [|destruct (momentumFadeCond now _ cd)];
      destruct Hrun as [Hrun _]; congruence.
Qed.

(** C7: a cycle with a position held whose pair is not in the scan changes
    nothing, wallet and position (peak price included), and logs the
    warning alone; the cycle after it starts from the same state. *)
Theorem C7_missing_pair_is_skipped pairs now st :
  CurrentHolding.Active (holding st) = true ->
  snd (filterPairs now pairs) !! CurrentHolding.PairAddress (holding st) = None ->
  runScan (inr pairs) now st
  = (st, [LogPairNotFound (CurrentHolding.BaseTokenSymbol (holding st))
            (CurrentHolding.PairAddress (holding st))])
  /\ forall fetched' now',
       runCycles [(inr pairs, now); (fetched', now')] st
       = (fst (runScan fetched' now' st),
          LogPairNotFound (CurrentHolding.BaseTokenSymbol (holding st))
            (CurrentHolding.PairAddress (holding st))
          :: snd (runScan fetched' now' st)).
Proof.
  intros Hact Hcd.
  assert (runScan (inr pairs) now st
          = (st, [LogPairNotFound (CurrentHolding.BaseTokenSymbol (holding st))
                    (CurrentHolding.PairAddress (holding st))])) as Hskip.
  { cycle_cases pairs now st; try congruence. reflexivity. }
  split; [exact Hskip|].
  intros fetched' now'. cbn [runCycles]. rewrite Hskip.
  destruct (runScan fetched' now' st) as [st2 log2]. cbn.
  now rewrite app_nil_r.
Qed.

(** An idle cycle that does not buy changes nothing and appends no wallet
    log record. *)
Lemma runScan_idle_without_trade fetched now (st : State F) :
  CurrentHolding.Active (holding st) = false ->
  tradeActions (snd (runScan fetched now st)) = [] ->
  fst (runScan fetched now st) = st
  /\ walletEntries (snd (runScan fetched now st)) = [].
Proof.
  intros Hact. destruct fetched as [err|pairs]; [now split|].
  cycle_cases pairs now st; try congruence.
  all: rewrite ?tradeActions_app, ?walletEntries_app; cbn.
  all: try discriminate.
  all: intros _; split; reflexivity.
Qed.

(** C9 (amended): the SELL block changes [Active] alone in the position it
    finds (the position whose peak this cycle has just updated); every
    other field keeps its value.  The cycle then trades [SELL] or
    [SELL; BUY] and appends one wallet log record, a copy of the position
    the cycle ends with.  When no BUY follows, that is the stale position.
    When the same cycle buys, it is the new position, active and on the top
    candidate's pair: the stale values are not in the record.  Later cycles
    that do not buy leave the stale position as it is and append no wallet
    log record. *)
Theorem C9_sell_clears_Active_only pairs now st cd reason :
  CurrentHolding.Active (holding st) = true ->
  snd (filterPairs now pairs) !! CurrentHolding.PairAddress (holding st) = Some cd ->
  exitReason now (updatePeak (holding st) cd) cd = Some reason ->
  let before := updatePeak (holding st) cd in
  let after :=
    holding (fst (fst (exitLogic now (snd (filterPairs now pairs)) st))) in
  let result := runScan (inr pairs) now st in
  after = CurrentHolding.withActive before false
  /\ (CurrentHolding.Active after = false
      /\ CurrentHolding.BaseTokenSymbol after = CurrentHolding.BaseTokenSymbol before
      /\ CurrentHolding.BaseTokenAddr after = CurrentHolding.BaseTokenAddr before
      /\ CurrentHolding.QuoteTokenSymbol after = CurrentHolding.QuoteTokenSymbol before
      /\ CurrentHolding.QuoteTokenAddr after = CurrentHolding.QuoteTokenAddr before
      /\ CurrentHolding.PairAddress after = CurrentHolding.PairAddress before
      /\ CurrentHolding.AmountToken after = CurrentHolding.AmountToken before
      /\ CurrentHolding.EntryPriceNative after = CurrentHolding.EntryPriceNative before
      /\ CurrentHolding.EntryTime after = CurrentHolding.EntryTime before
      /\ CurrentHolding.EntryLiquidityUSD after = CurrentHolding.EntryLiquidityUSD before
      /\ CurrentHolding.PeakPriceNative after = CurrentHolding.PeakPriceNative before)
  /\ (tradeActions (snd result) = [SELL]
      \/ tradeActions (snd result) = [SELL; BUY])
  /\ map WalletLogEntry.Holding (walletEntries (snd result))
     = [holding (fst result)]
  /\ (tradeActions (snd result) = [SELL] ->
      holding (fst result) = after
      /\ map WalletLogEntry.Holding (walletEntries (snd result)) = [after])
  /\ (tradeActions (snd result) = [SELL; BUY] ->
      exists top rest,
        rankCandidates (calculateScores (fst (filterPairs now pairs))) = top :: rest
        /\ holding (fst result)
           = CurrentHolding.mk true
               (TokenInfo.BaseTokenSymbol top) (TokenInfo.BaseTokenAddr top)
               (TokenInfo.QuoteTokenSymbol top) (TokenInfo.QuoteTokenAddr top)
               (TokenInfo.PairAddress top)
               (fconst tradeSizeSOL / TokenInfo.PriceNative top)
               (TokenInfo.PriceNative top) now
               (TokenInfo.LiquidityUSD top) (TokenInfo.PriceNative top)
        /\ holding (fst result) <> after
        /\ map WalletLogEntry.Holding (walletEntries (snd result)) <> [after])
  /\ (forall fetched' now' (st' : State F),
        CurrentHolding.Active (holding st') = false ->
        tradeActions (snd (runScan fetched' now' st')) = [] ->
        fst (runScan fetched' now' st') = st'
        /\ walletEntries (snd (runScan fetched' now' st')) = []).
Proof.
  intros Hact Hcd Hreason before after result.
  assert (after = CurrentHolding.withActive before false) as Hafter.
  { subst after before.
    destruct (exitLogic_outcome now (snd (filterPairs now pairs)) st);
      try congruence.
    all: match goal with
         | Hc : _ !! _ = Some ?c |- _ =>
             assert (c = cd) as -> by congruence; clear Hc
         end.
    all: try congruence.
    all: reflexivity. }
  split; [exact Hafter|].
  split; [rewrite Hafter; cbn; tauto|].
  assert (map WalletLogEntry.Holding (walletEntries (snd result))
          = [holding (fst result)]
          /\ ((tradeActions (snd result) = [SELL] /\ holding (fst result) = after)
              \/ (tradeActions (snd result) = [SELL; BUY]
                  /\ exists top rest,
                       rankCandidates (calculateScores (fst (filterPairs now pairs)))
                       = top :: rest
                       /\ holding (fst result)
                          = CurrentHolding.mk true
                              (TokenInfo.BaseTokenSymbol top) (TokenInfo.BaseTokenAddr top)
                              (TokenInfo.QuoteTokenSymbol top) (TokenInfo.QuoteTokenAddr top)
                              (TokenInfo.PairAddress top)
                              (fconst tradeSizeSOL / TokenInfo.PriceNative top)
                              (TokenInfo.PriceNative top) now
                              (TokenInfo.LiquidityUSD top) (TokenInfo.PriceNative top))))
    as [Hlog Hways].
  { rewrite Hafter. subst result after before.
    cycle_cases pairs now st; try congruence.
    all: match goal with
         | Hc : _ !! _ = Some ?c |- _ =>
             assert (c = cd) as -> by congruence; clear Hc
         end.
    all: try congruence.
    all: rewrite ?tradeActions_app, ?walletEntries_app; cbn.
    all: split; [reflexivity|].
    all: try (left; split; reflexivity).
    all: try match goal with
           | Hh : CurrentHolding.Active _ = true |- _ => cbn in Hh; discriminate Hh
           end.
    right. split; [reflexivity|]. exists top, rest. split; [assumption|reflexivity]. }
  split; [destruct Hways as [[Ha _]|[Ha _]]; [left|right]; exact Ha|].
  split; [exact Hlog|].
  split; [|split].
  - intros Hsell. destruct Hways as [[_ Hh]|[Ha _]]; [|congruence].
    split; [exact Hh|]. now rewrite Hlog, Hh.
  - intros Hboth. destruct Hways as [[Ha _]|[_ (top & rest & Hrank & Hh)]];
      [congruence|].
    exists top, rest. split; [exact Hrank|]. split; [exact Hh|].
    assert (holding (fst result) <> after) as Hne.
    { rewrite Hh, Hafter. intros Heq.
      apply (f_equal CurrentHolding.Active) in Heq. discriminate Heq. }
    split; [exact Hne|].
    rewrite Hlog. intros Heq. apply Hne. congruence.
  - intros fetched' now' st'. apply runScan_idle_without_trade.
Qed.

End ExitProperties.

(** ** Scoring as computed *)

Section ScoringAsComputed.

Context {F : Type} `{Float64 F}.


End ScoringAsComputed.

(** ** Properties in exact arithmetic

    The specification states its formulas over the numbers themselves;
    these are proved at the [Exact] instance, where equality of values is
    the equality [==] of fractions. *)

Section ExactOrder.

Local Open Scope Q_scope.

Lemma Qltb_lt (x y : Q) : Qltb x y = true <-> x < y.
Proof.
  unfold Qltb. rewrite negb_true_iff, <- not_true_iff_false, Qle_bool_iff.
  split; [apply Qnot_le_lt | apply Qlt_not_le].
Qed.

Lemma Qltb_ge (x y : Q) : Qltb x y = false <-> y <= x.
Proof.
  unfold Qltb. rewrite negb_false_iff. apply Qle_bool_iff.
Qed.




End ExactOrder.

Section ExactScoring.

Local Open Scope Q_scope.


Section Batch.

Variable raw : TokenInfo.t Q -> Q.






End Batch.


End ExactScoring.

(** *** Normalization in binary64

    The two ends of the range are exact when the spread [max - min] is a
    finite non-zero number: [x - x] is [+0], [0 / d] is a zero and [d / d]
    is [1]. *)

Section Binary64Scoring.

Local Open Scope float_scope.











End Binary64Scoring.


Section ExactRatios.

Local Open Scope Q_scope.



(** The percentage of a wallet with closed trades, as a quotient. *)
Lemma profitabilityPercent_exact (w : PaperWallet.t Q) :
  PaperWallet.TradesMade w <> 0%Z ->
  ~ inject_Z (PaperWallet.TradesMade w) == 0
  /\ profitabilityPercent w * inject_Z (PaperWallet.TradesMade w)
     == 100 * inject_Z (PaperWallet.ProfitableTrades w).
Proof.
  intros Hne.
  assert (~ inject_Z (PaperWallet.TradesMade w) == 0) as Hden.
  { intros Heq. unfold Qeq in Heq. cbn in Heq. lia. }
  split; [exact Hden|].
  unfold profitabilityPercent.
  destruct (Z.eqb_spec (PaperWallet.TradesMade w) 0) as [E|_]; [contradiction|].
  cbn [fdiv fmul float64_of_int fconst Exact].
  field. exact Hden.
Qed.

End ExactRatios.

Section Percentage.

Context {F : Type} `{Float64 F} `{Strconv F} `{SortSlice}.

Local Open Scope float64_scope.

Lemma shownPercents_app (l1 l2 : list (Effect F)) :
  shownPercents (l1 ++ l2) = shownPercents l1 ++ shownPercents l2.
Proof. apply omap_app. Qed.

(** A cycle shows the percentage at most once, with the wallet log record
    written at its end, computed from the final wallet. *)
Lemma runScan_shownPercents fetched now st :
  shownPercents (snd (runScan fetched now st)) = []
  \/ shownPercents (snd (runScan fetched now st))
     = [profitabilityPercent (wallet (fst (runScan fetched now st)))].
Proof.
  destruct fetched as [err|pairs]; [now left|].
  cycle_cases pairs now st.
  all: rewrite ?shownPercents_app; cbn; auto.
Qed.

End Percentage.

(** C10: [profitabilityPercent] returns 0.0 for a wallet without closed
    trades and profitable / trades x 100 otherwise; the denominator of the
    division is then not zero, and the result times the number of trades
    is 100 times the number of profitable ones.  A cycle shows this value
    of its final wallet whenever it logs the wallet. *)
Theorem C10_profitabilityPercent_guarded :
  (forall (F : Type) (Hf : Float64 F) (w : PaperWallet.t F),
      (PaperWallet.TradesMade w = 0 -> profitabilityPercent w = fconst 0.0%Q)
      /\ (PaperWallet.TradesMade w <> 0 ->
          profitabilityPercent w
          = fmul (fdiv (float64_of_int (PaperWallet.ProfitableTrades w))
                       (float64_of_int (PaperWallet.TradesMade w)))
                 (fconst 100.0%Q)))
  /\ (forall w : PaperWallet.t Q,
        PaperWallet.TradesMade w <> 0 ->
        ~ (inject_Z (PaperWallet.TradesMade w) == 0)%Q
        /\ (profitabilityPercent w * inject_Z (PaperWallet.TradesMade w)
            == 100 * inject_Z (PaperWallet.ProfitableTrades w))%Q)
  /\ (forall (F : Type) (Hf : Float64 F) (Hp : Strconv F) (Hs : SortSlice)
             fetched now (st : State F),
        shownPercents (snd (runScan fetched now st)) = []
        \/ shownPercents (snd (runScan fetched now st))
           = [profitabilityPercent (wallet (fst (runScan fetched now st)))]).
Proof.
  split; [|split].
  - intros F Hf w. unfold profitabilityPercent.
    destruct (Z.eqb_spec (PaperWallet.TradesMade w) 0) as [E|Hne];
      split; intros Hw; try reflexivity; contradiction.
  - exact profitabilityPercent_exact.
  - intros F Hf Hp Hs. apply runScan_shownPercents.
Qed.

(** ** The order of binary64 values *)

Section Binary64Order.

Lemma SFcompare_antisym (x y : spec_float) :
  SFcompare y x = option_map CompOpp (SFcompare x y).
Proof.
  destruct x as [sx|sx| |sx mx ex], y as [sy|sy| |sy my ey]; cbn;
    try reflexivity;
    try (destruct sx; reflexivity); try (destruct sy; reflexivity);
    try (destruct sx, sy; reflexivity).
  destruct sx, sy; cbn; try reflexivity;
    rewrite (Z.compare_antisym ex ey);
    destruct (ex ?= ey) eqn:E; cbn; try reflexivity;
    now rewrite (Pos.compare_cont_antisym mx my Eq).
Qed.

Lemma SFcompare_None (x y : spec_float) :
  SFcompare x y = None -> SFcompare x x = None \/ SFcompare y y = None.
Proof.
  destruct x as [sx|sx| |sx mx ex], y as [sy|sy| |sy my ey]; cbn; auto;
    try discriminate.
Qed.

Lemma SFcompare_refl (x : spec_float) :
  SFcompare x x = None \/ SFcompare x x = Some Eq.
Proof.
  destruct x as [s|s| |s m e]; cbn; auto.
  - destruct s; auto.
  - right. destruct s; now rewrite Z.compare_refl, Pos.compare_cont_refl.
Qed.

(** For two values that are not NaN (each equal to itself), "not [x < y]"
    is [y <= x]. *)
Lemma ltb_false_leb (x y : float) :
  PrimFloat.ltb x y = false ->
  PrimFloat.eqb x x = true -> PrimFloat.eqb y y = true ->
  PrimFloat.leb y x = true.
Proof.
  rewrite FloatAxioms.ltb_spec, FloatAxioms.leb_spec, !FloatAxioms.eqb_spec.
  unfold SFltb, SFleb, SFeqb.
  rewrite (SFcompare_antisym (Prim2SF x) (Prim2SF y)).
  destruct (SFcompare (Prim2SF x) (Prim2SF y)) as [[]|] eqn:E; cbn;
    try reflexivity; try discriminate.
  intros _ Hx Hy.
  apply SFcompare_None in E as [E|E]; rewrite E in *; discriminate.
Qed.

(** A value with a lower bound is not NaN. *)
Lemma leb_not_nan (x y : float) :
  PrimFloat.leb x y = true -> PrimFloat.eqb y y = true.
Proof.
  rewrite FloatAxioms.leb_spec, FloatAxioms.eqb_spec.
  unfold SFleb, SFeqb. intros Hle.
  destruct (SFcompare_refl (Prim2SF y)) as [E|E]; rewrite E; [|reflexivity].
  destruct (Prim2SF y); try discriminate E.
  destruct (Prim2SF x); cbn in Hle; discriminate Hle.
Qed.

(** The two tests before a BUY, [balance >= tradeSizeSOL] and not
    [balance < solToSpend], leave [solToSpend <= balance]. *)
Lemma binary64_buy_needs_cost (balance : float) :
  fleb (fconst tradeSizeSOL) balance = true ->
  fltb balance buyCost = false ->
  fleb buyCost balance = true.
Proof.
  cbn [fleb fltb Binary64]. intros Hsize Hcost.
  apply ltb_false_leb; [exact Hcost|now apply leb_not_nan in Hsize|reflexivity].
Qed.

(** The order of [SFcompare] on values other than NaN: by sign class, then
    exponent, then mantissa. *)
Definition SFkey (x : spec_float) : Z * Z * Z :=
  match x with
  | S754_zero _ | S754_nan => (0, 0, 0)
  | S754_infinity s => (if s then -2 else 2, 0, 0)
  | S754_finite s m e => if s then (-1, - e, Z.neg m) else (1, e, Z.pos m)
  end.

Definition keyCompare (a b : Z * Z * Z) : comparison :=
  match fst (fst a) ?= fst (fst b) with
  | Eq =>
      match snd (fst a) ?= snd (fst b) with
      | Eq => snd a ?= snd b
      | c => c
      end
  | c => c
  end.

Definition keyLt (a b : Z * Z * Z) : Prop :=
  fst (fst a) < fst (fst b)
  \/ (fst (fst a) = fst (fst b)
      /\ (snd (fst a) < snd (fst b)
          \/ (snd (fst a) = snd (fst b) /\ snd a < snd b))).

Lemma keyCompare_Lt (a b : Z * Z * Z) : keyCompare a b = Lt <-> keyLt a b.
Proof.
  unfold keyCompare, keyLt.
  destruct (Z.compare_spec (fst (fst a)) (fst (fst b)));
    destruct (Z.compare_spec (snd (fst a)) (snd (fst b)));
    destruct (Z.compare_spec (snd a) (snd b));
    split; intros Hc; try discriminate Hc; try reflexivity; lia.
Qed.

Lemma keyCompare_Gt (a b : Z * Z * Z) : keyCompare a b = Gt <-> keyLt b a.
Proof.
  unfold keyCompare, keyLt.
  destruct (Z.compare_spec (fst (fst a)) (fst (fst b)));
    destruct (Z.compare_spec (snd (fst a)) (snd (fst b)));
    destruct (Z.compare_spec (snd a) (snd b));
    split; intros Hc; try discriminate Hc; try reflexivity; lia.
Qed.

Lemma SFcompare_key (x y : spec_float) :
  x <> S754_nan -> y <> S754_nan ->
  SFcompare x y = Some (keyCompare (SFkey x) (SFkey y)).
Proof.
  intros Hx Hy.
  destruct x as [sx|sx| |sx mx ex], y as [sy|sy| |sy my ey];
    try contradiction; cbn [SFcompare SFkey].
  all: try (destruct sx; reflexivity); try (destruct sy; reflexivity);
    try (destruct sx, sy; reflexivity).
  destruct sx, sy; try reflexivity; unfold keyCompare; cbn [fst snd].
  change (-1 ?= -1) with Eq. cbv iota.
  rewrite Z.compare_opp, (Z.compare_antisym ex ey).
  destruct (ex ?= ey); cbn [CompOpp]; reflexivity.
Qed.


Lemma keyLt_trans (a b c : Z * Z * Z) : keyLt a b -> keyLt b c -> keyLt a c.
Proof. unfold keyLt. lia. Qed.

Lemma keyLt_irrefl (a : Z * Z * Z) : ~ keyLt a a.
Proof. unfold keyLt. lia. Qed.

Lemma keyLt_neg_trans (a b c : Z * Z * Z) :
  ~ keyLt a b -> ~ keyLt b c -> ~ keyLt a c.
Proof. unfold keyLt. lia. Qed.

Lemma SFltb_key (x y : spec_float) :
  x <> S754_nan -> y <> S754_nan ->
  SFltb x y = true <-> keyLt (SFkey x) (SFkey y).
Proof.
  intros Hx Hy. unfold SFltb. rewrite (SFcompare_key x y Hx Hy).
  rewrite <- keyCompare_Lt.
  destruct (keyCompare (SFkey x) (SFkey y)); split; congruence.
Qed.

Lemma SFleb_key (x y : spec_float) :
  x <> S754_nan -> y <> S754_nan ->
  SFleb x y = true <-> ~ keyLt (SFkey y) (SFkey x).
Proof.
  intros Hx Hy. unfold SFleb. rewrite (SFcompare_key x y Hx Hy).
  rewrite <- keyCompare_Gt.
  destruct (keyCompare (SFkey x) (SFkey y)); split; congruence.
Qed.

Lemma SFltb_not_nan (x y : spec_float) :
  SFltb x y = true -> x <> S754_nan /\ y <> S754_nan.
Proof.
  unfold SFltb. destruct x, y; cbn; try discriminate; split; discriminate.
Qed.

(** A binary64 value is a number when it is equal to itself. *)
Lemma is_nan_SF (x : float) :
  PrimFloat.is_nan x = false <-> Prim2SF x <> S754_nan.
Proof.
  unfold PrimFloat.is_nan. rewrite negb_false_iff, FloatAxioms.eqb_spec.
  unfold SFeqb. split.
  - intros Hc Hn. rewrite Hn in Hc. discriminate Hc.
  - intros Hn. rewrite (SFcompare_key _ _ Hn Hn).
    destruct (keyCompare (SFkey (Prim2SF x)) (SFkey (Prim2SF x))) eqn:E;
      [reflexivity| |].
    + apply keyCompare_Lt in E. now apply keyLt_irrefl in E.
    + apply keyCompare_Gt in E. now apply keyLt_irrefl in E.
Qed.

Lemma ltb_irrefl (x : float) : PrimFloat.ltb x x = false.
Proof.
  rewrite FloatAxioms.ltb_spec.
  destruct (SFltb (Prim2SF x) (Prim2SF x)) eqn:E; [|reflexivity].
  destruct (SFltb_not_nan _ _ E) as [Hx _].
  apply (SFltb_key _ _ Hx Hx) in E. now apply keyLt_irrefl in E.
Qed.

Lemma ltb_trans (x y z : float) :
  PrimFloat.ltb x y = true -> PrimFloat.ltb y z = true -> PrimFloat.ltb x z = true.
Proof.
  rewrite !FloatAxioms.ltb_spec. intros Hxy Hyz.
  destruct (SFltb_not_nan _ _ Hxy) as [Hx Hy].
  destruct (SFltb_not_nan _ _ Hyz) as [_ Hz].
  apply (SFltb_key _ _ Hx Hz).
  apply (SFltb_key _ _ Hx Hy) in Hxy. apply (SFltb_key _ _ Hy Hz) in Hyz.
  exact (keyLt_trans _ _ _ Hxy Hyz).
Qed.

Lemma ltb_neg_trans (x y z : float) :
  PrimFloat.is_nan x = false -> PrimFloat.is_nan y = false ->
  PrimFloat.is_nan z = false ->
  PrimFloat.ltb x y = false -> PrimFloat.ltb y z = false ->
  PrimFloat.ltb x z = false.
Proof.
  rewrite !is_nan_SF, !FloatAxioms.ltb_spec. intros Hx Hy Hz Hxy Hyz.
  apply not_true_iff_false. apply not_true_iff_false in Hxy, Hyz.
  rewrite (SFltb_key _ _ Hx Hz). rewrite (SFltb_key _ _ Hx Hy) in Hxy.
  rewrite (SFltb_key _ _ Hy Hz) in Hyz.
  exact (keyLt_neg_trans _ _ _ Hxy Hyz).
Qed.

(** For numbers, "not [y < x]" is [x <= y]. *)
Lemma ltb_false_iff_leb (x y : float) :
  PrimFloat.is_nan x = false -> PrimFloat.is_nan y = false ->
  PrimFloat.ltb y x = false <-> PrimFloat.leb x y = true.
Proof.
  rewrite !is_nan_SF, FloatAxioms.ltb_spec, FloatAxioms.leb_spec. intros Hx Hy.
  rewrite (SFleb_key _ _ Hx Hy), <- (SFltb_key _ _ Hy Hx).
  symmetry. apply not_true_iff_false.
Qed.

End Binary64Order.

(** ** Ranking *)

Section ExactRanking.

Local Open Scope Q_scope.

(** On exact scores, "greater score first" is a strict weak ordering. *)
Lemma scoreGreater_swo : StrictWeakOrder (scoreGreater (F:=Q)).
Proof.
  unfold scoreGreater. cbn [fltb Exact]. split.
  - intros a. apply Qltb_ge. lra.
  - intros a b c. rewrite !Qltb_lt. lra.
  - intros a b c. rewrite !Qltb_ge. lra.
Qed.

Lemma StronglySorted_weaken {A : Type} (R S : A -> A -> Prop) (l : list A) :
  (forall a b, In a l -> In b l -> R a b -> S a b) ->
  StronglySorted R l -> StronglySorted S l.
Proof.
  intros HRS Hs. induction Hs as [|a l Hl IH Ha]; constructor.
  - apply IH. intros x y Hx Hy. apply HRS; now right.
  - rewrite List.Forall_forall in *. intros x Hx.
    apply HRS; [now left|now right|now apply Ha].
Qed.

Lemma ranked_exact `{SortSlice} (scored : list (TokenInfo.t Q)) :
  let ranked := rankCandidates scored in
  Permutation scored ranked
  /\ StronglySorted (fun a b => TokenInfo.Score b <= TokenInfo.Score a) ranked
  /\ (forall top rest, ranked = top :: rest ->
      forall c, In c scored -> TokenInfo.Score c <= TokenInfo.Score top).
Proof.
  intros ranked.
  assert (Permutation scored ranked) as Hperm
    by apply sort_Slice_Permutation.
  assert (StronglySorted (fun a b => TokenInfo.Score b <= TokenInfo.Score a) ranked)
    as Hsorted.
  { apply (StronglySorted_weaken (fun a b => scoreGreater b a = false)).
    - intros a b _ _. unfold scoreGreater. cbn [fltb Exact]. now rewrite Qltb_ge.
    - apply sort_Slice_sorted, scoreGreater_swo. }
  split; [exact Hperm|]. split; [exact Hsorted|].
  intros top rest Hranked c Hc.
  apply (Permutation_in _ Hperm) in Hc. rewrite Hranked in Hc, Hsorted.
  apply StronglySorted_inv in Hsorted as [_ Hall].
  destruct Hc as [<-|Hc]; [lra|].
  rewrite List.Forall_forall in Hall. now apply Hall.
Qed.

End ExactRanking.

Section Binary64Ranking.

(** Every Score of the batch is a number. *)
Definition scoresAreNumbers (scored : list (TokenInfo.t float)) : Prop :=
  Forall (fun c => PrimFloat.is_nan (TokenInfo.Score c) = false) scored.

(** On binary64 scores that are numbers, "greater score first" is a strict
    weak ordering of the batch. *)
Lemma scoreGreater_swo_binary64 (scored : list (TokenInfo.t float)) :
  scoresAreNumbers scored ->
  StrictWeakOrderOn (scoreGreater (F:=float)) scored.
Proof.
  unfold scoresAreNumbers. rewrite List.Forall_forall. intros Hnum.
  unfold scoreGreater. cbn [fltb Binary64]. split.
  - intros a _. apply ltb_irrefl.
  - intros a b c _ _ _ Hab Hbc. exact (ltb_trans _ _ _ Hbc Hab).
  - intros a b c Ha Hb Hc Hab Hbc.
    apply (ltb_neg_trans _ (TokenInfo.Score b)); auto.
Qed.

Lemma ranked_binary64 (S : SortSlice) (scored : list (TokenInfo.t float)) :
  SortsOnSlice S ->
  scoresAreNumbers scored ->
  let ranked := rankCandidates scored in
  Permutation scored ranked
  /\ StronglySorted
       (fun a b => PrimFloat.leb (TokenInfo.Score b) (TokenInfo.Score a) = true)
       ranked
  /\ (forall top rest, ranked = top :: rest ->
      forall c, In c scored ->
        PrimFloat.leb (TokenInfo.Score c) (TokenInfo.Score top) = true).
Proof.
  intros Hsorts Hnum ranked.
  assert (Permutation scored ranked) as Hperm
    by apply sort_Slice_Permutation.
  assert (forall c, In c ranked -> PrimFloat.is_nan (TokenInfo.Score c) = false)
    as Hnum'.
  { intros c Hc. apply (Permutation_in _ (Permutation_sym Hperm)) in Hc.
    unfold scoresAreNumbers in Hnum. rewrite List.Forall_forall in Hnum. auto. }
  assert (StronglySorted
            (fun a b => PrimFloat.leb (TokenInfo.Score b) (TokenInfo.Score a) = true)
            ranked) as Hsorted.
  { apply (StronglySorted_weaken (fun a b => scoreGreater b a = false)).
    - intros a b Ha Hb. unfold scoreGreater. cbn [fltb Binary64].
      apply ltb_false_iff_leb; auto.
    - apply Hsorts, scoreGreater_swo_binary64, Hnum. }
  split; [exact Hperm|]. split; [exact Hsorted|].
  intros top rest Hranked c Hc.
  apply (Permutation_in _ Hperm) in Hc.
  assert (PrimFloat.is_nan (TokenInfo.Score top) = false) as Htop
    by (apply Hnum'; rewrite Hranked; now left).
  rewrite Hranked in Hc, Hsorted.
  apply StronglySorted_inv in Hsorted as [_ Hall].
  destruct Hc as [<-|Hc].
  - apply ltb_false_iff_leb; auto. apply ltb_irrefl.
  - rewrite List.Forall_forall in Hall. now apply Hall.
Qed.

End Binary64Ranking.

(** C2 (amended): the ranked list is a permutation of the scored
    candidates in descending order of Score, so its head has the greatest
    Score of the batch: over exact scores for every sorter meeting the
    contract of [sort.Slice], and over [float64] scores that are numbers
    for every sorter that orders a slice by the comparisons of its
    elements, as the sorter of Go's [sort] package modelled here does.
    (The order among candidates of equal Score is whatever [sort.Slice]
    leaves.) *)
Theorem C2_ranked_by_score_descending :
  (forall (S : SortSlice) (scored : list (TokenInfo.t Q)),
      let ranked := rankCandidates scored in
      Permutation scored ranked
      /\ StronglySorted
           (fun a b => (TokenInfo.Score b <= TokenInfo.Score a)%Q) ranked
      /\ (forall top rest, ranked = top :: rest ->
          forall c, In c scored -> (TokenInfo.Score c <= TokenInfo.Score top)%Q))
  /\ (forall (S : SortSlice) (scored : list (TokenInfo.t float)),
        SortsOnSlice S ->
        scoresAreNumbers scored ->
        let ranked := rankCandidates scored in
        Permutation scored ranked
        /\ StronglySorted
             (fun a b =>
                PrimFloat.leb (TokenInfo.Score b) (TokenInfo.Score a) = true)
             ranked
        /\ (forall top rest, ranked = top :: rest ->
            forall c, In c scored ->
              PrimFloat.leb (TokenInfo.Score c) (TokenInfo.Score top) = true))
  /\ SortsOnSlice GoSortSlice.
Proof.
  split; [|split].
  - intros S scored. apply ranked_exact.
  - intros S scored. apply ranked_binary64.
  - exact GoSortSlice_SortsOnSlice.
Qed.

(** ** Wallet accounting *)

(** *** Binary64 constants and order *)

#[local] Set Warnings "-inexact-float".

(** [fconst] at binary64 gives the constants of the program the values
    their decimal literals denote: the nearest binary64 numbers. *)
Lemma fconst_binary64_nearest :
  fconst simulatedFeePercent = 0.003%float
  /\ fconst (1.0 - liquidityDropPercent)%Q = 0.7%float
  /\ fconst (1.0 - trailingStopLossPercent)%Q = 0.97%float
  /\ fconst takeProfitThreshold = 1.05%float
  /\ fconst momentumFadeExitM5 = 0.001%float
  /\ fconst minScoreToEnter = 0.65%float
  /\ fconst wM5Change = 0.3%float
  /\ fconst wH1Change = 0.15%float
  /\ fconst wM5Volume = 0.2%float
  /\ fconst wM5BuySellRatio = 0.25%float
  /\ fconst wLiquidity = 0.1%float
  /\ buyCost = 1.003%float.
Proof. repeat split. Qed.

#[local] Set Warnings "inexact-float".



(** *** The wallet as the program computes it *)

Section WalletAsComputed.

Context {F : Type} `{Float64 F} `{Strconv F} `{SortSlice}.

Local Open Scope float64_scope.

Lemma wallet_accounting_as_computed pairs now (st : State F) :
  let result := runScan (inr pairs) now st in
  let balance := PaperWallet.SOLBalance (wallet st) in
  let balance' := PaperWallet.SOLBalance (wallet (fst result)) in
  let fee := fconst simulatedFeePercent in
  match tradeEntries (snd result) with
  | [] => wallet (fst result) = wallet st
  | [e] =>
      match TradeLogEntry.Action e with
      | BUY =>
          (balance >=? fconst tradeSizeSOL) = true
          /\ (balance <? buyCost) = false
          /\ balance' = balance - buyCost
      | SELL =>
          TradeLogEntry.TokenAmount e = CurrentHolding.AmountToken (holding st)
          /\ TradeLogEntry.SOLAmount e
             = TradeLogEntry.TokenAmount e * TradeLogEntry.PriceNative e
          /\ balance'
             = balance
               + (TradeLogEntry.SOLAmount e - TradeLogEntry.SOLAmount e * fee)
      end
  | [s; b] =>
      let afterSell :=
        balance + (TradeLogEntry.SOLAmount s - TradeLogEntry.SOLAmount s * fee) in
      TradeLogEntry.Action s = SELL /\ TradeLogEntry.Action b = BUY
      /\ TradeLogEntry.SOLAmount s
         = CurrentHolding.AmountToken (holding st) * TradeLogEntry.PriceNative s
      /\ (afterSell >=? fconst tradeSizeSOL) = true
      /\ (afterSell <? buyCost) = false
      /\ balance' = afterSell - buyCost
  | _ => False
  end
  /\ (CurrentHolding.Active (holding st) = false ->
      (balance <? buyCost) = true ->
      fst result = st /\ tradeEntries (snd result) = []).
Proof.
  cbv zeta.
  cycle_cases pairs now st.
  all: try match goal with
    | Hh : CurrentHolding.Active (holding (fst (executeSell _ _ _ _))) = true |- _ =>
        discriminate Hh
    | Hh : CurrentHolding.Active (holding ?s) = true,
      Hi : CurrentHolding.Active (holding ?s) = false |- _ => congruence
    | Hh : CurrentHolding.Active (holding (mkState _ (updatePeak _ _))) = false,
      Hi : CurrentHolding.Active (holding _) = true |- _ =>
        cbn in Hh; congruence
    end.
  all: rewrite ?tradeEntries_app, ?executeSell_tradeEntries.
  all: cbn [tradeEntries omap list_omap tradeEntry app TradeLogEntry.Action
            TradeLogEntry.SOLAmount TradeLogEntry.TokenAmount
            TradeLogEntry.PriceNative fst snd wallet holding
            PaperWallet.SOLBalance executeSell
            CurrentHolding.AmountToken updatePeak
            CurrentHolding.withPeakPriceNative] in *.
  all: repeat match goal with
    | Hg : _ && _ = true |- _ => apply andb_prop in Hg as [? ?]
    end.
  all: repeat split; try reflexivity; try assumption; try congruence.
Qed.

(** The trades are made: a position whose exit rule gives a reason is
    sold in that cycle, at the current price and for the held amount; an
    idle cycle whose top candidate passes the score gate and whose balance
    passes both tests buys it. *)
Lemma sell_is_executed pairs now (st : State F) cd reason :
  CurrentHolding.Active (holding st) = true ->
  snd (filterPairs now pairs) !! CurrentHolding.PairAddress (holding st) = Some cd ->
  exitReason now (updatePeak (holding st) cd) cd = Some reason ->
  exists rest,
    tradeEntries (snd (runScan (inr pairs) now st))
    = TradeLogEntry.mk now SELL
        (CurrentHolding.BaseTokenSymbol (holding st))
        (CurrentHolding.PairAddress (holding st))
        (CurrentHolding.AmountToken (holding st) * TokenInfo.PriceNative cd)
        (CurrentHolding.AmountToken (holding st)) (TokenInfo.PriceNative cd)
        (CurrentHolding.AmountToken (holding st) * TokenInfo.PriceNative cd
         * fconst simulatedFeePercent)
        (CurrentHolding.AmountToken (holding st) * TokenInfo.PriceNative cd
         - CurrentHolding.AmountToken (holding st) * TokenInfo.PriceNative cd
           * fconst simulatedFeePercent
         - fconst tradeSizeSOL)
        (Some reason)
      :: rest.
Proof.
  intros Hact Hcd Hreason.
  cycle_cases pairs now st; try congruence.
  all: match goal with
       | Hc : _ !! _ = Some ?c |- _ =>
           assert (c = cd) as -> by congruence; clear Hc
       end.
  all: try congruence.
  all: match goal with
       | Hr : exitReason _ _ _ = Some ?r |- _ =>
           assert (r = reason) as -> by congruence; clear Hr
       end.
  all: rewrite ?tradeEntries_app, ?executeSell_tradeEntries.
  all: cbn [holding CurrentHolding.BaseTokenSymbol CurrentHolding.PairAddress
            CurrentHolding.AmountToken updatePeak
            CurrentHolding.withPeakPriceNative app].
  all: eexists; reflexivity.
Qed.

Lemma buy_is_executed pairs now (st : State F) top rest :
  CurrentHolding.Active (holding st) = false ->
  rankCandidates (calculateScores (fst (filterPairs now pairs))) = top :: rest ->
  (TokenInfo.Score top >=? fconst minScoreToEnter) = true ->
  (PaperWallet.SOLBalance (wallet st) >=? fconst tradeSizeSOL) = true ->
  (PaperWallet.SOLBalance (wallet st) <? buyCost) = false ->
  tradeEntries (snd (runScan (inr pairs) now st))
  = [TradeLogEntry.mk now BUY
       (TokenInfo.BaseTokenSymbol top) (TokenInfo.PairAddress top)
       (fconst tradeSizeSOL)
       (fconst tradeSizeSOL / TokenInfo.PriceNative top)
       (TokenInfo.PriceNative top)
       (fconst (tradeSizeSOL * simulatedFeePercent)%Q)
       (fconst 0) None]
  /\ PaperWallet.SOLBalance (wallet (fst (runScan (inr pairs) now st)))
     = PaperWallet.SOLBalance (wallet st) - buyCost.
Proof.
  intros Hact Hrank Hscore Hsize Hcost.
  cycle_cases pairs now st; try congruence.
  all: try match goal with
       | Hs : calculateScores _ = [] |- _ =>
           rewrite Hs in Hrank;
           pose proof (sort_Slice_Permutation _ scoreGreater (@nil (TokenInfo.t F)))
             as Hp;
           unfold rankCandidates in Hrank; rewrite Hrank in Hp;
           apply Permutation_nil in Hp; discriminate Hp
       end.
  all: match goal with
       | Hr : rankCandidates _ = ?t :: ?r |- _ =>
           assert (t = top) as -> by congruence
       end.
  all: try match goal with
       | Hg : _ && _ = false |- _ =>
           rewrite Hscore, Hsize in Hg; discriminate Hg
       end.
  all: try congruence.
  rewrite ?tradeEntries_app. cbn. split; reflexivity.
Qed.

End WalletAsComputed.

(** *** The wallet in exact arithmetic *)

Section ExactWallet.

Context `{Strconv Q} `{SortSlice}.

Local Open Scope Q_scope.

(** Reads the interface's operations as the operations of [Q]. *)
Ltac exact_arith :=
  cbn [fadd fsub fmul fdiv feqb fltb fleb fconst float64_of_int Exact] in *.

Lemma buyCost_exact :
  buyCost (F:=Q) == tradeSizeSOL * (1 + simulatedFeePercent)
  /\ buyCost (F:=Q) == tradeSizeSOL + tradeSizeSOL * simulatedFeePercent.
Proof. unfold buyCost. exact_arith. split; ring. Qed.

Lemma wallet_accounting_exact pairs now (st : State Q) :
  let result := runScan (inr pairs) now st in
  let balance := PaperWallet.SOLBalance (wallet st) in
  let balance' := PaperWallet.SOLBalance (wallet (fst result)) in
  let T := tradeSizeSOL in
  let f := simulatedFeePercent in
  match tradeEntries (snd result) with
  | [] => wallet (fst result) = wallet st
  | [e] =>
      match TradeLogEntry.Action e with
      | BUY => T + T * f <= balance /\ balance' == balance - T * (1 + f)
      | SELL =>
          TradeLogEntry.TokenAmount e = CurrentHolding.AmountToken (holding st)
          /\ TradeLogEntry.SOLAmount e
             = TradeLogEntry.TokenAmount e * TradeLogEntry.PriceNative e
          /\ balance' == balance + TradeLogEntry.SOLAmount e * (1 - f)
      end
  | [s; b] =>
      TradeLogEntry.Action s = SELL /\ TradeLogEntry.Action b = BUY
      /\ TradeLogEntry.SOLAmount s
         = CurrentHolding.AmountToken (holding st) * TradeLogEntry.PriceNative s
      /\ T + T * f <= balance + TradeLogEntry.SOLAmount s * (1 - f)
      /\ balance' == balance + TradeLogEntry.SOLAmount s * (1 - f) - T * (1 + f)
  | _ => False
  end
  /\ (CurrentHolding.Active (holding st) = false ->
      balance < T + T * f ->
      fst result = st /\ tradeEntries (snd result) = []).
Proof.
  cbv zeta.
  pose proof (wallet_accounting_as_computed pairs now st) as Hrun.
  cbv zeta in Hrun. destruct Hrun as [Hrun Hidle].
  destruct buyCost_exact as [_ Hcost].
  split.
  - destruct (tradeEntries (snd (runScan (inr pairs) now st)))
      as [|e [|b [|]]]; [exact Hrun| | |exact Hrun].
    + destruct (TradeLogEntry.Action e).
      * destruct Hrun as (_ & Hfunds & ->).
        apply Qltb_ge in Hfunds. exact_arith.
        unfold tradeSizeSOL, simulatedFeePercent, buyCost in *. exact_arith.
        split; lra.
      * destruct Hrun as (Hamount & Hgross & ->).
        split; [exact Hamount|]. split; [exact Hgross|].
        exact_arith. ring.
    + destruct Hrun as (Hs & Hb & Hgross & _ & Hfunds & ->).
      split; [exact Hs|]. split; [exact Hb|]. split; [exact Hgross|].
      apply Qltb_ge in Hfunds. exact_arith.
      unfold tradeSizeSOL, simulatedFeePercent, buyCost in *. exact_arith.
      split; lra.
  - intros Hact Hlow. apply Hidle; [exact Hact|].
    apply Qltb_lt. rewrite Hcost. exact Hlow.
Qed.

Lemma buy_is_executed_exact pairs now (st : State Q) top rest :
  CurrentHolding.Active (holding st) = false ->
  rankCandidates (calculateScores (fst (filterPairs now pairs))) = top :: rest ->
  minScoreToEnter <= TokenInfo.Score top ->
  tradeSizeSOL + tradeSizeSOL * simulatedFeePercent
  <= PaperWallet.SOLBalance (wallet st) ->
  tradeActions (snd (runScan (inr pairs) now st)) = [BUY]
  /\ PaperWallet.SOLBalance (wallet (fst (runScan (inr pairs) now st)))
     == PaperWallet.SOLBalance (wallet st)
        - tradeSizeSOL * (1 + simulatedFeePercent).
Proof.
  intros Hact Hrank Hscore Hfunds.
  destruct (buy_is_executed pairs now st top rest Hact Hrank) as [Hlog Hbal].
  - exact_arith. apply Qle_bool_iff. exact Hscore.
  - exact_arith. apply Qle_bool_iff.
    unfold tradeSizeSOL, simulatedFeePercent in *. lra.
  - apply Qltb_ge. unfold buyCost. exact_arith.
    unfold tradeSizeSOL, simulatedFeePercent in *. lra.
  - unfold tradeActions. rewrite Hlog, Hbal. split; [reflexivity|].
    unfold buyCost. exact_arith. ring.
Qed.

Lemma sell_is_executed_exact pairs now (st : State Q) cd reason :
  CurrentHolding.Active (holding st) = true ->
  snd (filterPairs now pairs) !! CurrentHolding.PairAddress (holding st) = Some cd ->
  exitReason now (updatePeak (holding st) cd) cd = Some reason ->
  tradeActions (snd (runScan (inr pairs) now st)) = [SELL] ->
  PaperWallet.SOLBalance (wallet (fst (runScan (inr pairs) now st)))
  == PaperWallet.SOLBalance (wallet st)
     + CurrentHolding.AmountToken (holding st) * TokenInfo.PriceNative cd
       * (1 - simulatedFeePercent).
Proof.
  intros Hact Hcd Hreason Hactions.
  destruct (sell_is_executed pairs now st cd reason Hact Hcd Hreason)
    as [rest Hlog].
  pose proof (wallet_accounting_exact pairs now st) as [Hrun _].
  cbv zeta in Hrun. unfold tradeActions in Hactions.
  rewrite Hlog in Hrun, Hactions.
  destruct rest as [|b rest]; [|discriminate Hactions].
  cbn in Hrun. destruct Hrun as (_ & _ & ->). exact_arith. reflexivity.
Qed.

End ExactWallet.

(** C4 (amended): a BUY executes only with a balance of at least
    T + T x f and leaves [balance - (T + T x f)]; a SELL with gross proceeds
    G (the held amount times the current price) leaves
    [balance + (G - G x f)]; each operation is a [float64] operation, rounded
    as such.  A cycle without a trade leaves the wallet as it was, and an
    idle cycle whose balance is below T + T x f changes nothing.  When a SELL
    is followed by a BUY in one cycle, the balance test and the debit apply
    to the balance after the SELL.  The trades are made: a held position
    whose exit rule gives a reason is sold for G = amount x price, and an
    idle cycle whose top candidate reaches the entry score with a balance
    covering the cost buys.  The parts: what the program computes in every
    arithmetic; that the trades are made, in every arithmetic; these as the
    specification's formulas, a change of exactly T x (1 + f) and
    G x (1 - f), in exact arithmetic; and the balance test in binary64. *)
Theorem C4_wallet_accounting :
  (forall (F : Type) (Hf : Float64 F) (Hp : Strconv F) (Hs : SortSlice)
          pairs now (st : State F),
      let result := runScan (inr pairs) now st in
      let balance := PaperWallet.SOLBalance (wallet st) in
      let balance' := PaperWallet.SOLBalance (wallet (fst result)) in
      let fee := fconst simulatedFeePercent in
      match tradeEntries (snd result) with
      | [] => wallet (fst result) = wallet st
      | [e] =>
          match TradeLogEntry.Action e with
          | BUY =>
              fleb (fconst tradeSizeSOL) balance = true
              /\ fltb balance buyCost = false
              /\ balance' = fsub balance buyCost
          | SELL =>
              TradeLogEntry.TokenAmount e = CurrentHolding.AmountToken (holding st)
              /\ TradeLogEntry.SOLAmount e
                 = fmul (TradeLogEntry.TokenAmount e) (TradeLogEntry.PriceNative e)
              /\ balance'
                 = fadd balance
                     (fsub (TradeLogEntry.SOLAmount e)
                        (fmul (TradeLogEntry.SOLAmount e) fee))
          end
      | [s; b] =>
          let afterSell :=
            fadd balance
              (fsub (TradeLogEntry.SOLAmount s)
                 (fmul (TradeLogEntry.SOLAmount s) fee)) in
          TradeLogEntry.Action s = SELL /\ TradeLogEntry.Action b = BUY
          /\ TradeLogEntry.SOLAmount s
             = fmul (CurrentHolding.AmountToken (holding st))
                 (TradeLogEntry.PriceNative s)
          /\ fleb (fconst tradeSizeSOL) afterSell = true
          /\ fltb afterSell buyCost = false
          /\ balance' = fsub afterSell buyCost
      | _ => False
      end
      /\ (CurrentHolding.Active (holding st) = false ->
          fltb balance buyCost = true ->
          fst result = st /\ tradeEntries (snd result) = []))
  /\ (forall (F : Type) (Hf : Float64 F) (Hp : Strconv F) (Hs : SortSlice)
             pairs now (st : State F),
        let result := runScan (inr pairs) now st in
        let balance := PaperWallet.SOLBalance (wallet st) in
        let balance' := PaperWallet.SOLBalance (wallet (fst result)) in
        let amount := CurrentHolding.AmountToken (holding st) in
        let fee := fconst simulatedFeePercent in
        (forall cd reason,
            CurrentHolding.Active (holding st) = true ->
            snd (filterPairs now pairs) !! CurrentHolding.PairAddress (holding st)
            = Some cd ->
            exitReason now (updatePeak (holding st) cd) cd = Some reason ->
            let G := fmul amount (TokenInfo.PriceNative cd) in
            exists rest,
              tradeEntries (snd result)
              = TradeLogEntry.mk now SELL
                  (CurrentHolding.BaseTokenSymbol (holding st))
                  (CurrentHolding.PairAddress (holding st))
                  G amount (TokenInfo.PriceNative cd) (fmul G fee)
                  (fsub (fsub G (fmul G fee)) (fconst tradeSizeSOL))
                  (Some reason)
                :: rest)
        /\ (forall top rest,
              CurrentHolding.Active (holding st) = false ->
              rankCandidates (calculateScores (fst (filterPairs now pairs)))
              = top :: rest ->
              fleb (fconst minScoreToEnter) (TokenInfo.Score top) = true ->
              fleb (fconst tradeSizeSOL) balance = true ->
              fltb balance buyCost = false ->
              tradeEntries (snd result)
              = [TradeLogEntry.mk now BUY
                   (TokenInfo.BaseTokenSymbol top) (TokenInfo.PairAddress top)
                   (fconst tradeSizeSOL)
                   (fdiv (fconst tradeSizeSOL) (TokenInfo.PriceNative top))
                   (TokenInfo.PriceNative top)
                   (fconst (tradeSizeSOL * simulatedFeePercent)%Q)
                   (fconst 0) None]
              /\ balance' = fsub balance buyCost))
  /\ (forall (Hp : Strconv Q) (Hs : SortSlice) pairs now (st : State Q),
        let result := runScan (inr pairs) now st in
        let balance := PaperWallet.SOLBalance (wallet st) in
        let balance' := PaperWallet.SOLBalance (wallet (fst result)) in
        let T := tradeSizeSOL in
        let f := simulatedFeePercent in
        (match tradeEntries (snd result) with
         | [] => wallet (fst result) = wallet st
         | [e] =>
             match TradeLogEntry.Action e with
             | BUY => T + T * f <= balance /\ balance' == balance - T * (1 + f)
             | SELL =>
                 TradeLogEntry.TokenAmount e
                 = CurrentHolding.AmountToken (holding st)
                 /\ TradeLogEntry.SOLAmount e
                    = TradeLogEntry.TokenAmount e * TradeLogEntry.PriceNative e
                 /\ balance' == balance + TradeLogEntry.SOLAmount e * (1 - f)
             end
         | [s; b] =>
             TradeLogEntry.Action s = SELL /\ TradeLogEntry.Action b = BUY
             /\ TradeLogEntry.SOLAmount s
                = CurrentHolding.AmountToken (holding st)
                  * TradeLogEntry.PriceNative s
             /\ T + T * f <= balance + TradeLogEntry.SOLAmount s * (1 - f)
             /\ balance'
                == balance + TradeLogEntry.SOLAmount s * (1 - f) - T * (1 + f)
         | _ => False
         end
         /\ (CurrentHolding.Active (holding st) = false ->
             balance < T + T * f ->
             fst result = st /\ tradeEntries (snd result) = []))%Q)
  /\ (forall (Hp : Strconv Q) (Hs : SortSlice) pairs now (st : State Q),
        let result := runScan (inr pairs) now st in
        let balance := PaperWallet.SOLBalance (wallet st) in
        let balance' := PaperWallet.SOLBalance (wallet (fst result)) in
        let T := tradeSizeSOL in
        let f := simulatedFeePercent in
        ((forall cd reason,
             CurrentHolding.Active (holding st) = true ->
             snd (filterPairs now pairs) !! CurrentHolding.PairAddress (holding st)
             = Some cd ->
             exitReason now (updatePeak (holding st) cd) cd = Some reason ->
             tradeActions (snd result) = [SELL] ->
             balance'
             == balance
                + CurrentHolding.AmountToken (holding st) * TokenInfo.PriceNative cd
                  * (1 - f))
         /\ (forall top rest,
               CurrentHolding.Active (holding st) = false ->
               rankCandidates (calculateScores (fst (filterPairs now pairs)))
               = top :: rest ->
               minScoreToEnter <= TokenInfo.Score top ->
               T + T * f <= balance ->
               tradeActions (snd result) = [BUY]
               /\ balance' == balance - T * (1 + f)))%Q)
  /\ (forall balance : float,
        fleb (fconst tradeSizeSOL) balance = true ->
        fltb balance buyCost = false ->
        fleb buyCost balance = true).
Proof.
  split; [|split; [|split; [|split]]].
  - intros F Hf Hp Hs. exact wallet_accounting_as_computed.
  - intros F Hf Hp Hs pairs now st. cbv zeta. split.
    + intros cd reason. apply sell_is_executed.
    + intros top rest. apply buy_is_executed.
  - intros Hp Hs. exact wallet_accounting_exact.
  - intros Hp Hs pairs now st. cbv zeta. split.
    + intros cd reason. apply sell_is_executed_exact.
    + intros top rest. apply buy_is_executed_exact.
  - exact binary64_buy_needs_cost.
Qed.

(** ** The properties on the sample data *)

Section Witnesses.

Import Sample.

(** Computes the held pair's entry of [currentPairData]. *)
Ltac scan_data Hcd F pairs address :=
  eassert (snd (filterPairs (F:=F) now pairs) !! address = Some _) as Hcd
    by (lazy; reflexivity).

(** C1, counterexample: holding AAA, a scan in which AAA's pool has shrunk
    and BBB scores above the threshold makes one cycle SELL AAA and then
    BUY BBB, in exact arithmetic and in binary64, whichever of the two
    sorters (Go's, and plain insertion sort) ranks the candidates. *)
Lemma C1_sell_then_buy_in_one_cycle :
  tradeActions (snd (runScan (F:=Q) (inr scanAB) now heldAAA)) = [SELL; BUY]
  /\ tradeActions (snd (runScan (F:=float) (inr scanAB) now heldAAA)) = [SELL; BUY]
  /\ tradeActions
       (snd (@runScan float Binary64 Binary64Strconv InsertionSortSlice
               (inr scanAB) now heldAAA)) = [SELL; BUY]
  /\ map TradeLogEntry.Symbol
       (tradeEntries (snd (runScan (F:=float) (inr scanAB) now heldAAA)))
     = ["AAA"; "BBB"].
Proof. repeat split; vm_compute; reflexivity. Qed.

(** C2, witness: of three candidates scoring 0.4, 0.9 and 0.7 the ranker
    puts the one scoring 0.9 first; of the thirteen binary64 candidates the
    one scoring 0.1 is not above the top of the ranking. *)
Lemma C2_top_of_three :
  (TokenInfo.Score (Sample.scoredAs (F:=Q) "low" 0.4) <= 0.9)%Q
  /\ (TokenInfo.Score (Sample.scoredAs (F:=Q) "mid" 0.7) <= 0.9)%Q
  /\ map TokenInfo.PairAddress
       (rankCandidates (F:=Q)
          [scoredAs "low" 0.4; scoredAs "high" 0.9; scoredAs "mid" 0.7])
     = ["high"; "mid"; "low"]
  /\ PrimFloat.leb (B64.of_Q 0.1) (B64.of_Q 0.9) = true.
Proof.
  destruct C2_ranked_by_score_descending as (Hexact & Hbinary & Hgo).
  pose proof (Hexact GoSortSlice
                [scoredAs "low" 0.4; scoredAs "high" 0.9; scoredAs "mid" 0.7])
    as (_ & _ & Htop).
  specialize (Htop (scoredAs "high" 0.9) [scoredAs "mid" 0.7; scoredAs "low" 0.4]
                eq_refl).
  split; [|split; [|split]].
  - apply (Htop (scoredAs "low" 0.4)). cbn. tauto.
  - apply (Htop (scoredAs "mid" 0.7)). cbn. tauto.
  - reflexivity.
  - assert (scoresAreNumbers (thirteen (F:=float))) as Hnum
      by (repeat constructor).
    destruct (Hbinary GoSortSlice thirteen Hgo Hnum) as (_ & _ & Htop').
    eassert (rankCandidates (F:=float) thirteen = _ :: _) as Hranked
      by (vm_compute; reflexivity).
    exact (Htop' _ _ Hranked (scoredAs "c0" 0.1) (or_introl eq_refl)).
Defined.

(** C2, counterexample: thirteen candidates, the first scoring 0.1 and the
    twelve after it 0.9 each.  Go's sorter takes c6 for its pivot and swaps
    it to the front, where it stays: c6 tops the ranking, ahead of c1 to c5,
    which score the same and come before it in the input.  So it is in exact
    arithmetic and in binary64.  Insertion sort, which is stable, would
    leave c1 on top.  In a scan of thirteen eligible pairs of which the
    twelve after the first score the same, the program buys the sixth of
    them. *)
Lemma C2_equal_scores_change_order :
  let order := ["c6"; "c1"; "c2"; "c3"; "c4"; "c5"; "c7"; "c8"; "c9"; "c10";
                "c11"; "c12"; "c0"] in
  (option_map (map TokenInfo.PairAddress)
     (GoSort.Slice (scoreGreater (F:=Q)) thirteen) = Some order
   /\ map TokenInfo.PairAddress (rankCandidates (F:=Q) thirteen) = order
   /\ map TokenInfo.Score (rankCandidates (F:=Q) thirteen)
      = replicate 12 0.9%Q ++ [0.1%Q])
  /\ (option_map (map TokenInfo.PairAddress)
        (GoSort.Slice (scoreGreater (F:=float)) thirteen) = Some order
      /\ map TokenInfo.PairAddress (rankCandidates (F:=float) thirteen) = order
      /\ map TokenInfo.Score (rankCandidates (F:=float) thirteen)
         = replicate 12 (B64.of_Q 0.9) ++ [B64.of_Q 0.1])
  /\ map TokenInfo.PairAddress (insertionSort (scoreGreater (F:=Q)) thirteen)
     = ["c1"; "c2"; "c3"; "c4"; "c5"; "c6"; "c7"; "c8"; "c9"; "c10";
        "c11"; "c12"; "c0"]
  /\ map TradeLogEntry.Symbol
       (tradeEntries (snd (runScan (F:=float) (inr scanThirteen) now (idle 10.0))))
     = ["T6"]
  /\ map TradeLogEntry.Symbol
       (tradeEntries (snd (runScan (F:=Q) (inr scanThirteen) now (idle 10.0))))
     = ["T6"].
Proof. cbv zeta. repeat split; vm_compute; reflexivity. Qed.

(** C3, witness: AAA's liquidity fell from 10000 to 3000 USD (below 7000)
    while its price reached entry x 1.05; the SELL is reported as a
    liquidity drop. *)
Lemma C3_liquidity_drop_before_take_profit :
  sellReasons (snd (runScan (F:=Q) (inr scanAB) now heldAAA))
  = [LiquidityDrop (10000 * (1.0 - liquidityDropPercent))%Q]
  /\ sellReasons (snd (runScan (F:=float) (inr scanAB) now heldAAA))
     = [LiquidityDrop 7000%float].
Proof.
  split.
  - scan_data Hcd Q (@scanAB Q _) "PAIR_A".
    destruct (C3_exit_priority (F:=Q) scanAB now heldAAA _ eq_refl Hcd)
      as [Hboth _].
    apply Hboth; reflexivity.
  - scan_data Hcd float (@scanAB float _) "PAIR_A".
    destruct (C3_exit_priority (F:=float) scanAB now heldAAA _ eq_refl Hcd)
      as [Hboth _].
    apply Hboth; reflexivity.
Defined.

(** C4, witness: holding 100 AAA with 9.0 SOL, the SELL at 0.0105 brings
    G = 1.05 and leaves 9.0 + 1.05 x 0.997 SOL; the scenario of the
    specification, the initial wallet of 10.0 SOL, buys and is left with
    8.997 SOL, in exact arithmetic and (as the nearest binary64 value) in
    binary64; an idle wallet of 1.0 SOL, below 1.003, buys nothing and is
    left as it was. *)
Lemma C4_sell_credit_and_buy_debit :
  (tradeActions (snd (runScan (F:=Q) (inr scanMixed) now heldAAA)) = [SELL]
   /\ (PaperWallet.SOLBalance
         (wallet (fst (runScan (F:=Q) (inr scanMixed) now heldAAA)))
       == 9.0 + 100 * 0.0105 * (1 - simulatedFeePercent))%Q)
  /\ (tradeActions
        (snd (runScan (F:=Q) (inr scanBC) now (fst (initPaperTrading now))))
      = [BUY]
      /\ (PaperWallet.SOLBalance
            (wallet (fst (runScan (F:=Q) (inr scanBC) now
                            (fst (initPaperTrading now)))))
          == 8.997)%Q)
  /\ (fst (runScan (F:=Q) (inr scanBC) now (idle 1.0)) = idle 1.0
      /\ tradeEntries (snd (runScan (F:=Q) (inr scanBC) now (idle 1.0))) = [])
  /\ PaperWallet.SOLBalance
       (wallet (fst (runScan (F:=float) (inr scanBC) now
                       (fst (initPaperTrading now)))))
     = B64.of_Q 8.997.
Proof.
  destruct C4_wallet_accounting as (_ & _ & Hexact & Hmade & _).
  split; [|split; [|split]].
  - scan_data Hcd Q (@scanMixed Q _) "PAIR_A".
    match type of Hcd with
    | _ = Some ?cd =>
        eassert (exitReason (F:=Q) now (updatePeak (holding heldAAA) cd) cd = Some _)
          as Hreason by (lazy; reflexivity)
    end.
    assert (tradeActions (snd (runScan (F:=Q) (inr scanMixed) now heldAAA)) = [SELL])
      as Hsell by (vm_compute; reflexivity).
    split; [exact Hsell|].
    rewrite (proj1 (Hmade _ _ (@scanMixed Q _) now heldAAA) _ _
               eq_refl Hcd Hreason Hsell).
    reflexivity.
  - eassert (rankCandidates (F:=Q)
               (calculateScores (fst (filterPairs now scanBC))) = _ :: _)
      as Hrank by (lazy; reflexivity).
    destruct (proj2 (Hmade _ _ (@scanBC Q _) now (fst (initPaperTrading now)))
                _ _ eq_refl Hrank) as [Hbuy Hdebit].
    + vm_compute. discriminate.
    + vm_compute. discriminate.
    + split; [exact Hbuy|]. rewrite Hdebit. reflexivity.
  - apply (proj2 (Hexact _ _ (@scanBC Q _) now (idle 1.0))); reflexivity.
  - vm_compute. reflexivity.
Defined.

(** C4, counterexample: in binary64 the debit and the credit are rounded.
    An idle wallet of 1e17 SOL buys, and the balance after the BUY is the
    balance before it: 1e17 - 1.003 rounds to 1e17.  And in the cycle that
    sells AAA and buys BBB, 9.0 + (1.05 - 1.05 x 0.003) - 1.003 leaves
    9.0438499999999991, which is not the binary64 number nearest 9.04385,
    the balance the exact formulas give. *)
Lemma C4_binary64_balance_is_rounded :
  (tradeActions (snd (runScan (F:=float) (inr scanBC) now (idle 1e17))) = [BUY]
   /\ PaperWallet.SOLBalance
        (wallet (fst (runScan (F:=float) (inr scanBC) now (idle 1e17))))
      = PaperWallet.SOLBalance (wallet (idle (F:=float) 1e17))
   /\ (PaperWallet.SOLBalance
         (wallet (fst (runScan (F:=Q) (inr scanBC) now (idle 1e17))))
       == 1e17 - 1.003)%Q)
  /\ (tradeActions (snd (runScan (F:=float) (inr scanAB) now heldAAA)) = [SELL; BUY]
      /\ (PaperWallet.SOLBalance
            (wallet (fst (runScan (F:=Q) (inr scanAB) now heldAAA)))
          == 9.04385)%Q
      /\ PrimFloat.eqb
           (PaperWallet.SOLBalance
              (wallet (fst (runScan (F:=float) (inr scanAB) now heldAAA))))
           (B64.of_Q 9.04385) = false
      /\ PrimFloat.ltb
           (PaperWallet.SOLBalance
              (wallet (fst (runScan (F:=float) (inr scanAB) now heldAAA))))
           (B64.of_Q 9.04385) = true).
Proof. repeat split; vm_compute; reflexivity. Qed.



(** C6, witness: the scenario of the specification.  With entry 1.0 and
    peak 1.2 the stop is 1.2 x 0.97 = 1.164: a price of 1.164 is sold as a
    trailing stop, in exact arithmetic and in binary64.  So is a price of
    1.0, which a stop at entry x 0.97 would have let pass; a price of
    1.165 is above the stop (and is sold as a take profit). *)
Lemma C6_stop_at_1164 :
  sellReasons (snd (runScan (F:=Q) (inr (scanPeak "1.164")) now heldPeak))
  = [TrailingStopLoss (1.2 * (1.0 - trailingStopLossPercent))%Q]
  /\ sellReasons (snd (runScan (F:=float) (inr (scanPeak "1.164")) now heldPeak))
     = [TrailingStopLoss (B64.of_Q 1.164)]
  /\ sellReasons (snd (runScan (F:=float) (inr (scanPeak "1.0")) now heldPeak))
     = [TrailingStopLoss (B64.of_Q 1.164)]
  /\ sellReasons (snd (runScan (F:=float) (inr (scanPeak "1.165")) now heldPeak))
     = [TakeProfit].
Proof.
  split; [|split; [|split]].
  - scan_data Hcd Q (@scanPeak Q _ "1.164") "PAIR_P".
    destruct (C6_trailing_stop_from_peak (F:=Q) (scanPeak "1.164") now heldPeak
                _ eq_refl Hcd) as (Hsell & _ & _).
    exact (proj2 (Hsell eq_refl)).
  - scan_data Hcd float (@scanPeak float _ "1.164") "PAIR_P".
    destruct (C6_trailing_stop_from_peak (F:=float) (scanPeak "1.164") now heldPeak
                _ eq_refl Hcd) as (Hsell & _ & _).
    exact (proj2 (Hsell eq_refl)).
  - scan_data Hcd float (@scanPeak float _ "1.0") "PAIR_P".
    destruct (C6_trailing_stop_from_peak (F:=float) (scanPeak "1.0") now heldPeak
                _ eq_refl Hcd) as (Hsell & _ & _).
    exact (proj2 (Hsell eq_refl)).
  - vm_compute. reflexivity.
Defined.

(** C7, witness: holding AAA, a scan without AAA leaves the state as it
    was and logs the warning. *)
Lemma C7_scan_without_held_pair :
  runScan (F:=Q) (inr scanBC) now heldAAA
  = (heldAAA, [LogPairNotFound "AAA" "PAIR_A"])
  /\ runScan (F:=float) (inr scanBC) now heldAAA
     = (heldAAA, [LogPairNotFound "AAA" "PAIR_A"]).
Proof.
  split.
  - apply (C7_missing_pair_is_skipped (F:=Q) scanBC now heldAAA);
      vm_compute; reflexivity.
  - apply (C7_missing_pair_is_skipped (F:=float) scanBC now heldAAA);
      vm_compute; reflexivity.
Defined.



(** C9, witness: AAA is sold and nothing is bought; the wallet log record
    of the cycle carries the closed position with every field but
    [Active] as before, the peak being this cycle's price. *)
Lemma C9_closed_position_in_wallet_log :
  map WalletLogEntry.Holding
    (walletEntries (snd (runScan (F:=Q) (inr scanMixed) now heldAAA)))
  = [CurrentHolding.withActive
       (CurrentHolding.withPeakPriceNative (holding heldAAA) 0.0105%Q) false]
  /\ holding (fst (runScan (F:=Q) (inr scanMixed) now heldAAA))
     = CurrentHolding.withActive
         (CurrentHolding.withPeakPriceNative (holding heldAAA) 0.0105%Q) false.
Proof.
  scan_data Hcd Q (@scanMixed Q _) "PAIR_A".
  match type of Hcd with
  | _ = Some ?cd =>
      eassert (exitReason (F:=Q) now (updatePeak (holding heldAAA) cd) cd = Some _)
        as Hreason by (lazy; reflexivity)
  end.
  destruct (C9_sell_clears_Active_only (F:=Q) scanMixed now heldAAA _ _
              eq_refl Hcd Hreason) as (Hafter & _ & _ & _ & Hlog & _).
  destruct (Hlog eq_refl) as [Hfinal Hentries].
  rewrite Hentries, Hfinal, Hafter. split; reflexivity.
Defined.

(** C9, counterexample: AAA is sold and BBB is bought in the same cycle.
    The one wallet log record that follows the SELL carries the position in
    BBB, active and on PAIR_B; the closed position in AAA, with its stale
    amount and prices, is in no record.  So it is in exact arithmetic and in
    binary64. *)
Lemma C9_wallet_log_after_sell_then_buy :
  let stale (F : Type) `{Float64 F} `{Strconv F} :=
    holding (fst (fst (exitLogic (F:=F) now (snd (filterPairs now scanAB)) heldAAA))) in
  let logged (F : Type) `{Float64 F} `{Strconv F} :=
    map WalletLogEntry.Holding
      (walletEntries (snd (runScan (F:=F) (inr scanAB) now heldAAA))) in
  (tradeActions (snd (runScan (F:=Q) (inr scanAB) now heldAAA)) = [SELL; BUY]
   /\ (CurrentHolding.Active (stale Q), CurrentHolding.PairAddress (stale Q))
      = (false, "PAIR_A")
   /\ map (fun h => (CurrentHolding.Active h, CurrentHolding.PairAddress h)) (logged Q)
      = [(true, "PAIR_B")]
   /\ logged Q <> [stale Q])
  /\ (tradeActions (snd (runScan (F:=float) (inr scanAB) now heldAAA)) = [SELL; BUY]
      /\ (CurrentHolding.Active (stale float), CurrentHolding.PairAddress (stale float))
         = (false, "PAIR_A")
      /\ map (fun h => (CurrentHolding.Active h, CurrentHolding.PairAddress h))
             (logged float)
         = [(true, "PAIR_B")]
      /\ logged float <> [stale float]).
Proof.
  cbv zeta. split.
  - split; [vm_compute; reflexivity|]. split; [vm_compute; reflexivity|].
    split; [vm_compute; reflexivity|].
    intros Heq.
    apply (f_equal (map CurrentHolding.Active)) in Heq.
    vm_compute in Heq. discriminate Heq.
  - split; [vm_compute; reflexivity|]. split; [vm_compute; reflexivity|].
    split; [vm_compute; reflexivity|].
    intros Heq.
    apply (f_equal (map CurrentHolding.Active)) in Heq.
    vm_compute in Heq. discriminate Heq.
Qed.

(** C10, witness: three profitable trades of four show as 75%, and a
    wallet without trades as 0. *)
Lemma C10_three_of_four :
  (profitabilityPercent (F:=Q) (walletOf 9.0 0.01 4 3) * inject_Z 4
   == 100 * inject_Z 3)%Q
  /\ profitabilityPercent (F:=float) (walletOf 9.0 0.01 4 3) = 75%float
  /\ profitabilityPercent (F:=float) (walletOf 10.0 0 0 0) = 0%float.
Proof.
  destruct C10_profitabilityPercent_guarded as (Hgen & Hexact & _).
  split; [|split].
  - apply (Hexact (walletOf 9.0 0.01 4 3)). discriminate.
  - rewrite (proj2 (Hgen float _ (walletOf 9.0 0.01 4 3))); [reflexivity|discriminate].
  - rewrite (proj1 (Hgen float _ (walletOf 10.0 0 0 0))); reflexivity.
Defined.

End Witnesses.
